(** * TailingsIQ API gateway (main.py)

    A shallow embedding of the route handlers of [main.py] over an explicit
    model of what they talk to: the document store ([database.<collection>]),
    the wall clock ([time.time()]) and the exceptions they raise and catch.

    Handlers are computations in a state-and-exception monad over [World].
    Python dicts are finite maps from strings to values; floats are IEEE
    binary64 numbers (Rocq's primitive floats). *)

From Stdlib Require Import ZArith String Ascii List Bool Lia Floats DecimalString.
From stdpp Require Import gmap strings list fin_maps.
Import ListNotations.

Set Warnings "-register-all,-inexact-float".
Local Open Scope Z_scope.
Local Open Scope string_scope.

(** ** Python values and exceptions *)

(** Identifier assigned by the store to each inserted document
    ([bson.ObjectId]); the model draws them from a counter. *)
Definition ObjectId : Type := N.

(** JSON/BSON values as the handlers see them. *)
Inductive value : Type :=
| VNone
| VBool (b : bool)
| VInt (z : Z)
| VFloat (f : float)
| VStr (s : string)
| VOid (o : ObjectId)
| VList (l : list value)
| VDict (d : gmap string value).

(** A Python dict with string keys. *)
Abbreviation document := (gmap string value).

(** The exceptions that reach the handlers' [except Exception] clauses. *)
Inductive exception : Type :=
| HTTPException (status_code : Z) (detail : string)
| InvalidId (oid : string)          (* bson.errors.InvalidId, from ObjectId(s) *)
| KeyError (key : string)           (* d[key] or del d[key] on a missing key *)
| PyMongoError (msg : string)       (* a failed store operation *)
| ValueError (msg : string)         (* int(nan) *)
| OverflowError (msg : string).     (* int(inf) *)

Inductive result (A : Type) : Type :=
| Ok (a : A)
| Raise (e : exception).
Arguments Ok {A} a.
Arguments Raise {A} e.

Definition is_ok {A} (r : result A) : bool :=
  match r with Ok _ => true | Raise _ => false end.

(** ** The environment of a request *)

Record World : Type := mkWorld {
  db : gmap string (list document); (* database.<name>, in insertion order *)
  db_fault : option string;         (* [Some msg]: store operations fail *)
  next_oid : ObjectId;              (* the driver's ObjectId generator *)
  clock : nat -> float;             (* successive readings of time.time() *)
  ticks : nat                       (* how many readings were taken *)
}.

(** [database.<name>]: a collection that was never written is empty. *)
Definition collection (w : World) (name : string) : list document :=
  default [] (db w !! name).

(** ** The handler monad: state passing with exceptions *)

Definition M (A : Type) : Type := World -> result A * World.

Definition ret {A} (a : A) : M A := fun w => (Ok a, w).

Definition bind {A B} (c : M A) (k : A -> M B) : M B :=
  fun w => match c w with
           | (Ok a, w') => k a w'
           | (Raise e, w') => (Raise e, w')
           end.

Definition raise {A} (e : exception) : M A := fun w => (Raise e, w).

(** [try: body  except Exception as e: handler e]. Effects of the body
    that happened before the exception are kept. *)
Definition try_except {A} (body : M A) (handler : exception -> M A) : M A :=
  fun w => match body w with
           | (Ok a, w') => (Ok a, w')
           | (Raise e, w') => handler e w'
           end.

Notation "x <- c ;; k" := (bind c (fun x => k))
  (at level 100, c at next level, right associativity).

(** [time.time()] *)
Definition time_time : M float :=
  fun w => (Ok (clock w (ticks w)),
            mkWorld (db w) (db_fault w) (next_oid w) (clock w) (S (ticks w))).

(** [int(x)] for a float [x]: truncation toward zero; NaN and the
    infinities raise. *)
Definition trunc (x : float) : option Z :=
  match Prim2SF x with
  | S754_zero _ => Some 0
  | S754_finite s m e =>
      let mag := match e with
                 | Z0 => Z.pos m
                 | Zpos p => Z.pos m * 2 ^ Z.pos p
                 | Zneg p => Z.pos m / 2 ^ Z.pos p
                 end in
      Some (if s then - mag else mag)
  | S754_infinity _ => None
  | S754_nan => None
  end.

Definition py_int (x : float) : M Z :=
  match trunc x with
  | Some z => ret z
  | None => if PrimFloat.is_nan x
            then raise (ValueError "cannot convert float NaN to integer")
            else raise (OverflowError "cannot convert float infinity to integer")
  end.

(** An int formatted in an f-string: its decimal digits. *)
Definition str_int (z : Z) : string := NilZero.string_of_int (Z.to_int z).

(** A dict literal. *)
Definition dict (entries : list (string * value)) : document :=
  list_to_map entries.

(** [d[key]] *)
Definition getitem (d : document) (key : string) : M value :=
  match d !! key with
  | Some v => ret v
  | None => raise (KeyError key)
  end.

(** [del d[key]] *)
Definition delitem (d : document) (key : string) : M document :=
  match d !! key with
  | Some _ => ret (delete key d)
  | None => raise (KeyError key)
  end.

(** [if not x: x = fallback] for an [Optional[float]]: [None] and zero are
    both false. *)
Definition or_default (x : option float) (fallback : M float) : M float :=
  match x with
  | Some f => if PrimFloat.eqb f 0%float then fallback else ret f
  | None => fallback
  end.

(** [if not x: raise e] for what [find_one] returns: [None] and the empty
    dict are both false. *)
Definition found_or (x : option document) (e : exception) : M document :=
  match x with
  | Some d => if Nat.eqb (size d) 0 then raise e else ret d
  | None => raise e
  end.

(** ** The document store *)

(** The query documents the handlers build: equality with a string,
    equality with an ObjectId, and a closed range on a number
    ([{"$gte": lo, "$lte": hi}]). *)
Inductive condition : Type :=
| EqStr (s : string)
| EqOid (o : ObjectId)
| Range (lo hi : float).

Abbreviation query := (list (string * condition)).

(** The store's comparison of two doubles: NaN equals NaN and is otherwise
    incomparable; other doubles compare numerically. *)
Definition num_lte (a b : float) : bool :=
  if PrimFloat.is_nan a || PrimFloat.is_nan b
  then PrimFloat.is_nan a && PrimFloat.is_nan b
  else PrimFloat.leb a b.

Definition holds (d : document) (c : string * condition) : bool :=
  match c with
  | (key, EqOid o) =>
      match d !! key with
      | Some (VOid o') => N.eqb o' o
      | _ => false
      end
  | (key, EqStr s) =>
      match d !! key with
      | Some (VStr s') => String.eqb s' s
      | _ => false
      end
  | (key, Range lo hi) =>
      match d !! key with
      | Some (VFloat t) => num_lte lo t && num_lte t hi
      | _ => false
      end
  end.

Definition matches (q : query) (d : document) : bool :=
  forallb (holds d) q.

(** Any store operation fails when the store is unavailable. *)
Definition store_ready : M unit :=
  fun w => match db_fault w with
           | Some msg => (Raise (PyMongoError msg), w)
           | None => (Ok tt, w)
           end.

(** [await database.<name>.insert_one(document)]. A document without an
    [_id] gets a fresh ObjectId, and the driver adds it to the caller's
    dict in place: the operation returns [result.inserted_id] together
    with the dict as the caller sees it afterwards. Generated ids are
    taken to be fresh; the model does not check [_id] for duplicates. *)
Definition insert_one (name : string) (doc : document) : M (value * document) :=
  _ <- store_ready ;;
  fun w =>
    match doc !! "_id" with
    | Some v =>
        (Ok (v, doc),
         mkWorld (<[name := (collection w name ++ [doc])%list]> (db w))
                 (db_fault w) (next_oid w) (clock w) (ticks w))
    | None =>
        let oid := next_oid w in
        let doc' := <["_id" := VOid oid]> doc in
        (Ok (VOid oid, doc'),
         mkWorld (<[name := (collection w name ++ [doc'])%list]> (db w))
                 (db_fault w) (N.succ oid) (clock w) (ticks w))
    end.

(** [database.<name>.find(q)], iterated to the end: the matching documents
    in the order the store holds them (no sort is requested). *)
Definition find (name : string) (q : query) : M (list document) :=
  _ <- store_ready ;;
  fun w => (Ok (List.filter (matches q) (collection w name)), w).

(** [await database.<name>.find_one(q)]: the first match, or [None]. *)
Definition find_one (name : string) (q : query) : M (option document) :=
  _ <- store_ready ;;
  fun w => (Ok (head (List.filter (matches q) (collection w name))), w).

(** ** Request bodies *)

(** The two fields of the login form that the handler reads. *)
Record OAuth2PasswordRequestForm : Type := mkForm {
  username : string;
  password : string
}.

Record MonitoringData : Type := mkMonitoringData {
  facility_id : string;
  timestamp : float;
  readings : document
}.

(** ** The route handlers

    The [current_user] dependency is left out: no handler body reads it. *)

(** [POST /token] *)
Definition login_for_access_token (form_data : OAuth2PasswordRequestForm) : M document :=
  if String.eqb (username form_data) "demo" && String.eqb (password form_data) "demo"
  then ret (dict [("access_token", VStr "demo_token_12345");
                  ("token_type", VStr "bearer")])
  else raise (HTTPException 401 "Incorrect username or password").

(** The two literal lists of [assess_facility_risk]. *)
Definition risk_factors : list value :=
  [VDict (dict [("category", VStr "structural"); ("severity", VStr "medium");
                ("description", VStr "Foundation stability")]);
   VDict (dict [("category", VStr "environmental"); ("severity", VStr "low");
                ("description", VStr "Water quality impact")])].

Definition recommendations : list value :=
  [VStr "Increase monitoring frequency";
   VStr "Schedule structural inspection";
   VStr "Review environmental controls"].

Section Handlers.

(** Library functions the handlers call and whose code is not part of the
    program: [str(x)], and [bson.ObjectId(s)] on a string ([None] where
    it raises [InvalidId]). *)
Variable py_str : value -> string.
Variable str_exc : exception -> string.
Variable ObjectId_of_str : string -> option ObjectId.

Definition new_ObjectId (s : string) : M ObjectId :=
  match ObjectId_of_str s with
  | Some oid => ret oid
  | None => raise (InvalidId s)
  end.

(** [except Exception as e: raise HTTPException(status_code=400, detail=str(e))] *)
Definition as_bad_request {A} (e : exception) : M A :=
  raise (HTTPException 400 (str_exc e)).

(** [d["id"] = str(d["_id"]); del d["_id"]] *)
Definition expose_id (d : document) : M document :=
  v <- getitem d "_id" ;;
  delitem (<["id" := VStr (py_str v)]> d) "_id".

(** [GET /facilities/{facility_id}] *)
Definition get_facility (facility_id : string) : M document :=
  try_except
    (oid <- new_ObjectId facility_id ;;
     facility <- find_one "facilities" [("_id", EqOid oid)] ;;
     facility <- found_or facility (HTTPException 404 "Facility not found") ;;
     expose_id facility)
    as_bad_request.

(** [GET /documents/{document_id}] *)
Definition get_document (document_id : string) : M document :=
  try_except
    (oid <- new_ObjectId document_id ;;
     document <- find_one "documents" [("_id", EqOid oid)] ;;
     document <- found_or document (HTTPException 404 "Document not found") ;;
     expose_id document)
    as_bad_request.

(** The loop over the cursor of [get_monitoring_data]. *)
Fixpoint collect_readings (cursor : list document) : M (list document) :=
  match cursor with
  | [] => ret []
  | reading :: cursor' =>
      reading <- expose_id reading ;;
      readings <- collect_readings cursor' ;;
      ret (reading :: readings)
  end.

(** [GET /facilities/{facility_id}/monitoring] *)
Definition get_monitoring_data (facility_id : string)
    (start_time end_time : option float) : M document :=
  try_except
    (start_time <- or_default start_time
                     (now <- time_time ;; ret (now - 604800)%float) ;;
     end_time <- or_default end_time time_time ;;
     cursor <- find "monitoring"
                 [("facility_id", EqStr facility_id);
                  ("timestamp", Range start_time end_time)] ;;
     readings <- collect_readings cursor ;;
     ret (dict [("facility_id", VStr facility_id);
                ("start_time", VFloat start_time);
                ("end_time", VFloat end_time);
                ("readings", VList (map VDict readings))]))
    as_bad_request.

(** [POST /facilities/{facility_id}/monitoring] *)
Definition add_monitoring_data (facility_id : string) (data : MonitoringData)
    : M document :=
  try_except
    (now <- time_time ;;
     let monitoring_doc :=
       dict [("facility_id", VStr facility_id);
             ("timestamp", VFloat (timestamp data));
             ("readings", VDict (readings data));
             ("created_at", VFloat now)] in
     inserted <- insert_one "monitoring" monitoring_doc ;;
     let (inserted_id, monitoring_doc) := inserted in
     ret (<["id" := VStr (py_str inserted_id)]> monitoring_doc))
    as_bad_request.

(** [POST /facilities/{facility_id}/risk-assessment] *)
Definition assess_facility_risk (facility_id : string) : M document :=
  try_except
    (t_id <- time_time ;;
     seconds <- py_int t_id ;;
     t_eval <- time_time ;;
     let assessment :=
       dict [("facility_id", VStr facility_id);
             ("assessment_id", VStr ("assessment_" ++ str_int seconds));
             ("timestamp", VFloat t_eval);
             ("overall_risk_level", VStr "medium");
             ("risk_score", VInt 65);
             ("summary", VStr "Automated risk assessment completed");
             ("risk_factors", VList risk_factors);
             ("recommendations", VList recommendations)] in
     inserted <- insert_one "assessments" assessment ;;
     let (inserted_id, assessment) := inserted in
     ret (<["id" := VStr (py_str inserted_id)]> assessment))
    as_bad_request.

End Handlers.

(** ** The other request bodies and response models *)

Module FacilityCreate.
Record t : Type := mk {
  name : string;
  location : string;
  type : string;
  owner : string;
  status : string
}.

(** [facility.dict()] *)
Definition to_dict (facility : t) : document :=
  dict [("name", VStr (name facility));
        ("location", VStr (location facility));
        ("type", VStr (type facility));
        ("owner", VStr (owner facility));
        ("status", VStr (status facility))].
End FacilityCreate.

Module FacilityResponse.
Record t : Type := mk {
  id : string;
  name : string;
  location : string;
  type : string;
  owner : string;
  status : string;
  created_at : string
}.
End FacilityResponse.

Module DocumentCreate.
Record t : Type := mk {
  name : string;
  type : string;
  facility_id : string;
  content : string
}.

(** [document.dict()] *)
Definition to_dict (document : t) : gmap string value :=
  dict [("name", VStr (name document));
        ("type", VStr (type document));
        ("facility_id", VStr (facility_id document));
        ("content", VStr (content document))].
End DocumentCreate.

Module DocumentResponse.
Record t : Type := mk {
  id : string;
  name : string;
  type : string;
  facility_id : string;
  created_at : string
}.
End DocumentResponse.

(** A [str] field of a response model, read from the keyword arguments.
    The handlers pass a string for every declared field; a missing field
    fails validation (a [ValueError]), and so, in this model, does a value
    that is not a string. Keys the model does not declare are ignored. *)
Definition str_field (kwargs : document) (key : string) : M string :=
  match kwargs !! key with
  | Some (VStr s) => ret s
  | Some _ => raise (ValueError (key ++ ": str type expected"))
  | None => raise (ValueError (key ++ ": field required"))
  end.

(** [FacilityResponse( **kwargs )] *)
Definition new_FacilityResponse (kwargs : document) : M FacilityResponse.t :=
  id <- str_field kwargs "id" ;;
  name <- str_field kwargs "name" ;;
  location <- str_field kwargs "location" ;;
  type <- str_field kwargs "type" ;;
  owner <- str_field kwargs "owner" ;;
  status <- str_field kwargs "status" ;;
  created_at <- str_field kwargs "created_at" ;;
  ret (FacilityResponse.mk id name location type owner status created_at).

(** [DocumentResponse( **kwargs )] *)
Definition new_DocumentResponse (kwargs : document) : M DocumentResponse.t :=
  id <- str_field kwargs "id" ;;
  name <- str_field kwargs "name" ;;
  type <- str_field kwargs "type" ;;
  facility_id <- str_field kwargs "facility_id" ;;
  created_at <- str_field kwargs "created_at" ;;
  ret (DocumentResponse.mk id name type facility_id created_at).

(** ** The other route handlers *)

(** The dependency behind every protected route: whatever the bearer
    token, the same user. *)
Definition get_current_user (token : string) : M document :=
  ret (dict [("username", VStr "demo_user"); ("role", VStr "admin")]).

(** [GET /health] *)
Definition health_check : M document :=
  now <- time_time ;;
  ret (dict [("status", VStr "healthy");
             ("timestamp", VFloat now);
             ("service", VStr "tailingsiq-api")]).

(** [GET /] *)
Definition root : M document :=
  ret (dict [("message", VStr "TailingsIQ API - Railway Deployment");
             ("version", VStr "1.0.0");
             ("docs", VStr "/docs");
             ("health", VStr "/health")]).

(** [if x: query[key] = x] for an [Optional[str]] filter: [None] and the
    empty string add nothing. *)
Definition filter_on (key : string) (x : option string) : query :=
  match x with
  | Some s => if String.eqb s "" then [] else [(key, EqStr s)]
  | None => []
  end.

Section OtherHandlers.

Variable py_str : value -> string.
Variable str_exc : exception -> string.

(** [POST /facilities] *)
Definition create_facility (facility : FacilityCreate.t) : M FacilityResponse.t :=
  try_except
    (t_created <- time_time ;;
     t_updated <- time_time ;;
     let facility_doc :=
       <["updated_at" := VFloat t_updated]>
         (<["created_at" := VFloat t_created]> (FacilityCreate.to_dict facility)) in
     inserted <- insert_one "facilities" facility_doc ;;
     let (inserted_id, facility_doc) := inserted in
     let facility_doc := <["id" := VStr (py_str inserted_id)]> facility_doc in
     created_at <- getitem facility_doc "created_at" ;;
     let facility_doc := <["created_at" := VStr (py_str created_at)]> facility_doc in
     new_FacilityResponse facility_doc)
    (as_bad_request str_exc).

(** [GET /facilities] *)
Definition list_facilities (owner status type : option string) : M (list document) :=
  try_except
    (let query := (filter_on "owner" owner ++ filter_on "status" status
                   ++ filter_on "type" type)%list in
     cursor <- find "facilities" query ;;
     collect_readings py_str cursor)
    (as_bad_request str_exc).

(** [POST /documents] *)
Definition upload_document (document : DocumentCreate.t) : M DocumentResponse.t :=
  try_except
    (t_created <- time_time ;;
     t_updated <- time_time ;;
     let document_doc :=
       <["updated_at" := VFloat t_updated]>
         (<["created_at" := VFloat t_created]> (DocumentCreate.to_dict document)) in
     inserted <- insert_one "documents" document_doc ;;
     let (inserted_id, document_doc) := inserted in
     let document_doc := <["id" := VStr (py_str inserted_id)]> document_doc in
     created_at <- getitem document_doc "created_at" ;;
     let document_doc := <["created_at" := VStr (py_str created_at)]> document_doc in
     new_DocumentResponse document_doc)
    (as_bad_request str_exc).

(** [GET /facilities/{facility_id}/risk-factors] *)
Definition get_risk_factors (facility_id : string) : M (list document) :=
  try_except
    (ret [dict [("id", VStr ("risk_factor_1_" ++ facility_id));
                ("category", VStr "structural");
                ("description", VStr "Foundation settlement detected");
                ("severity", VStr "medium");
                ("probability", VFloat 0.3);
                ("impact", VFloat 0.7)];
          dict [("id", VStr ("risk_factor_2_" ++ facility_id));
                ("category", VStr "environmental");
                ("description", VStr "Groundwater contamination risk");
                ("severity", VStr "low");
                ("probability", VFloat 0.2);
                ("impact", VFloat 0.5)]])
    (as_bad_request str_exc).

(** [POST /inference/query] *)
Definition query_model (query : document) : M document :=
  try_except
    (let text := default (VStr "") (query !! "text") in
     now <- time_time ;;
     ret (dict [("query", text);
                ("response", VStr "This is a simplified AI response. Integrate with OpenAI/Anthropic APIs for production use.");
                ("model", VStr "simplified_model");
                ("timestamp", VFloat now);
                ("usage", VDict (dict [("prompt_tokens", VInt 10);
                                       ("completion_tokens", VInt 20);
                                       ("total_tokens", VInt 30)]))]))
    (as_bad_request str_exc).

End OtherHandlers.

(** ** A concrete instance of the library functions

    Used to run the handlers on concrete requests: ObjectIds are written as
    24 hexadecimal digits, and exceptions print as the framework and the
    driver print them. *)

Definition hex_char (d : N) : ascii :=
  match d with
  | 0 => "0" | 1 => "1" | 2 => "2" | 3 => "3" | 4 => "4" | 5 => "5"
  | 6 => "6" | 7 => "7" | 8 => "8" | 9 => "9" | 10 => "a" | 11 => "b"
  | 12 => "c" | 13 => "d" | 14 => "e" | _ => "f"
  end%N%char.

Fixpoint hex_of (width : nat) (n : N) : string :=
  match width with
  | O => ""
  | S k => hex_of k (n / 16)%N ++ String (hex_char (n mod 16)%N) ""
  end.

Definition hex_value (c : ascii) : option N :=
  let n := N_of_ascii c in
  if ((48 <=? n) && (n <=? 57))%N then Some (n - 48)%N
  else if ((97 <=? n) && (n <=? 102))%N then Some (n - 87)%N
  else if ((65 <=? n) && (n <=? 70))%N then Some (n - 55)%N
  else None.

Fixpoint hex_parse (s : string) (acc : N) : option N :=
  match s with
  | "" => Some acc
  | String c s' =>
      match hex_value c with
      | Some d => hex_parse s' (16 * acc + d)%N
      | None => None
      end
  end.

Definition ObjectId_of_hex (s : string) : option ObjectId :=
  if Nat.eqb (String.length s) 24 then hex_parse s 0%N else None.

(** [str] on the values whose rendering the examples need; floats and
    containers are not rendered. *)
Definition str_value (v : value) : string :=
  match v with
  | VOid o => hex_of 24 o
  | VStr s => s
  | VInt z => str_int z
  | VBool true => "True"
  | VBool false => "False"
  | VNone => "None"
  | VFloat _ | VList _ | VDict _ => ""
  end.

Definition str_exception (e : exception) : string :=
  match e with
  | HTTPException status_code detail => str_int status_code ++ ": " ++ detail
  | InvalidId oid =>
      "'" ++ oid ++ "' is not a valid ObjectId, it must be a 12-byte input or a 24-character hex string"
  | KeyError key => "'" ++ key ++ "'"
  | PyMongoError msg => msg
  | ValueError msg => msg
  | OverflowError msg => msg
  end.

(** ** What the handlers build, named for the statements below *)

(** The dict literal of [add_monitoring_data], for a request ingested at
    clock reading [now]. *)
Definition monitoring_doc (facility_id : string) (data : MonitoringData)
    (now : float) : document :=
  dict [("facility_id", VStr facility_id);
        ("timestamp", VFloat (timestamp data));
        ("readings", VDict (readings data));
        ("created_at", VFloat now)].

(** The document [add_monitoring_data] leaves in the store when it runs
    in [w]. *)
Definition stored_reading (facility_id : string) (data : MonitoringData)
    (w : World) : document :=
  <["_id" := VOid (next_oid w)]>
    (monitoring_doc facility_id data (clock w (ticks w))).

(** The dict literal of [assess_facility_risk]. *)
Definition assessment_doc (facility_id : string) (seconds : Z)
    (t_eval : float) : document :=
  dict [("facility_id", VStr facility_id);
        ("assessment_id", VStr ("assessment_" ++ str_int seconds));
        ("timestamp", VFloat t_eval);
        ("overall_risk_level", VStr "medium");
        ("risk_score", VInt 65);
        ("summary", VStr "Automated risk assessment completed");
        ("risk_factors", VList risk_factors);
        ("recommendations", VList recommendations)].

(** [w] with the collection [name] replaced by [docs]. *)
Definition with_collection (w : World) (name : string) (docs : list document)
    : World :=
  mkWorld (<[name := docs]> (db w)) (db_fault w) (next_oid w) (clock w) (ticks w).

(** What one pass of the cursor loop does to a document. *)
Definition exposed (py_str : value -> string) (d : document) : document :=
  match d !! "_id" with
  | Some v => delete "_id" (<["id" := VStr (py_str v)]> d)
  | None => d
  end.

(** Every document of a collection has an [_id]. *)
Definition has_ids (docs : list document) : Prop :=
  Forall (fun d : document => is_Some (d !! "_id")) docs.

(** The query of [get_monitoring_data]. *)
Definition in_window (facility_id : string) (start_time end_time : float)
    : document -> bool :=
  matches [("facility_id", EqStr facility_id);
           ("timestamp", Range start_time end_time)].

(** ** The specification's rules, as properties of one request

    Each is stated over a start state [w] and the outcome [run] of a
    handler started in [w]. *)

(** The request was refused and the monitoring store is as before. *)
Definition refused_unchanged (w : World) (run : result document * World) : Prop :=
  is_ok (fst run) = false /\
  collection (snd run) "monitoring" = collection w "monitoring".

(** A reading stamped more than 5 minutes after the ingestion time (the
    clock reading taken for [created_at]) is refused. *)
Definition spec_rejects_future_timestamp (data : MonitoringData) (w : World)
    (run : result document * World) : Prop :=
  PrimFloat.ltb (clock w (ticks w) + 300)%float (timestamp data) = true ->
  refused_unchanged w run.

(** The [status] of the facility a path identifier resolves to, if any. *)
Definition facility_status (ObjectId_of_str : string -> option ObjectId)
    (w : World) (facility_id : string) : option value :=
  match ObjectId_of_str facility_id with
  | Some oid =>
      match head (List.filter (matches [("_id", EqOid oid)])
                              (collection w "facilities")) with
      | Some facility => facility !! "status"
      | None => None
      end
  | None => None
  end.

(** A reading for a facility that is not an active one is refused. *)
Definition spec_rejects_inactive_facility (status : option value) (w : World)
    (run : result document * World) : Prop :=
  status <> Some (VStr "active") -> refused_unchanged w run.

(** The timestamps of the readings of a monitoring response, in the order
    the response lists them. *)
Definition reading_timestamps (response : document) : list float :=
  match response !! "readings" with
  | Some (VList l) =>
      omap (fun v => match v with
                     | VDict d => match d !! "timestamp" with
                                  | Some (VFloat t) => Some t
                                  | _ => None
                                  end
                     | _ => None
                     end) l
  | _ => []
  end.

Fixpoint ascending (l : list float) : bool :=
  match l with
  | a :: (b :: _) as rest => PrimFloat.leb a b && ascending rest
  | _ => true
  end.

(** The monitoring query answers with readings in ascending timestamp
    order. *)
Definition spec_query_ascending (run : result document * World) : Prop :=
  exists response,
    fst run = Ok response /\ ascending (reading_timestamps response) = true.

(** The band of a risk score: low below 34, medium from 34 to 66, high
    above 66. *)
Definition spec_band (score : Z) : string :=
  if (score <? 34)%Z then "low" else if (score <=? 66)%Z then "medium" else "high".

(** An assessment carries a numeric risk score. *)
Definition has_numeric_score (assessment : document) : bool :=
  match assessment !! "risk_score" with
  | Some (VInt _) | Some (VFloat _) => true
  | _ => false
  end.

(** The facility has no reading in the monitoring store (so every window
    of its readings is empty). *)
Definition no_readings (w : World) (facility_id : string) : Prop :=
  List.filter (matches [("facility_id", EqStr facility_id)])
              (collection w "monitoring") = [].

(** An assessment over an empty window has no numeric score. *)
Definition spec_degraded_when_empty (w : World) (facility_id : string)
    (run : result document * World) : Prop :=
  no_readings w facility_id ->
  exists assessment,
    fst run = Ok assessment /\ has_numeric_score assessment = false.

(** Two assessments are equal except for the evaluation timestamp. *)
Definition spec_same_but_timestamp (a1 a2 : document) : Prop :=
  delete "timestamp" a1 = delete "timestamp" a2.

(** The fields in which two assessments of one facility may differ. *)
Definition varying_fields : list string :=
  ["timestamp"; "assessment_id"; "_id"; "id"].

(** The keys of the dict [assess_facility_risk] returns. *)
Definition assessment_fields : gset string :=
  list_to_set ["facility_id"; "assessment_id"; "timestamp"; "overall_risk_level";
               "risk_score"; "summary"; "risk_factors"; "recommendations";
               "_id"; "id"].

(** The dict [assess_facility_risk] returns when it runs in [w] and the
    clock's first reading truncates to [seconds]. *)
Definition assessment_of (py_str : value -> string) (facility_id : string)
    (seconds : Z) (w : World) : document :=
  <["id" := VStr (py_str (VOid (next_oid w)))]>
    (<["_id" := VOid (next_oid w)]>
       (assessment_doc facility_id seconds (clock w (S (ticks w))))).

(** ** Concrete requests and stores *)

(** A clock that starts at 1700000000.0 and advances one second per
    reading. *)
Definition clock0 (n : nat) : float :=
  (1700000000 + PrimFloat.of_uint63 (Uint63.of_Z (Z.of_nat n)))%float.

(** An empty, available store. *)
Definition world0 : World := mkWorld ∅ None 1%N clock0 0.

(** A store whose only facility is decommissioned. *)
Definition decommissioned_facility : document :=
  dict [("_id", VOid 10%N); ("name", VStr "North pit"); ("location", VStr "Kiruna");
        ("type", VStr "tailings-dam"); ("owner", VStr "LKAB");
        ("status", VStr "decommissioned")].

Definition world_decommissioned : World :=
  mkWorld {["facilities" := [decommissioned_facility]]} None 11%N clock0 0.

(** A reading stamped ten minutes after the clock's first reading. *)
Definition future_reading : MonitoringData :=
  mkMonitoringData "F1" 1700000600%float (dict [("pore-pressure", VFloat 10%float)]).

(** Two readings sent in the opposite order of their timestamps. *)
Definition late_reading : MonitoringData :=
  mkMonitoringData "F1" 200%float (dict [("pore-pressure", VFloat 12%float)]).
Definition early_reading : MonitoringData :=
  mkMonitoringData "F1" 100%float (dict [("pore-pressure", VFloat 10%float)]).


(** ** Concrete runs *)

(** The path identifier of the decommissioned facility, and one that
    resolves to nothing. *)
Definition decommissioned_id : string := "00000000000000000000000a".
Definition unknown_id : string := "00000000000000000000000b".

(** A reading for the decommissioned facility, stamped at ingestion time. *)
Definition plain_reading : MonitoringData :=
  mkMonitoringData decommissioned_id 1700000000%float
                   (dict [("pore-pressure", VFloat 11%float)]).

(** Ingest [late_reading], then [early_reading], then query the window
    from 50 to 300. *)
Definition ingest_then_query : M document :=
  _ <- add_monitoring_data str_value str_exception "F1" late_reading ;;
  _ <- add_monitoring_data str_value str_exception "F1" early_reading ;;
  get_monitoring_data str_value str_exception "F1" (Some 50%float) (Some 300%float).

(** Assess the same facility twice in a row. *)
Definition assess_twice : M (document * document) :=
  a1 <- assess_facility_risk str_value str_exception "F1" ;;
  a2 <- assess_facility_risk str_value str_exception "F1" ;;
  ret (a1, a2).

(** The store after the two ingests of [ingest_then_query]. *)
Definition world_two_readings : World :=
  snd ((_ <- add_monitoring_data str_value str_exception "F1" late_reading ;;
        add_monitoring_data str_value str_exception "F1" early_reading) world0).

(** The outcome of the first assessment of "F1" in the empty store. *)
Definition first_assessment : document :=
  assessment_of str_value "F1" 1700000000 world0.
Definition world_after_assessment : World :=
  snd (assess_facility_risk str_value str_exception "F1" world0).

(** The second assessment of "F1", made right after the first. *)
Definition second_assessment : document :=
  assessment_of str_value "F1" 1700000002 world_after_assessment.

(** The answer to the query of [ingest_then_query]: the two stored
    readings, the one ingested first listed first. *)
Definition queried_response : document :=
  dict [("facility_id", VStr "F1");
        ("start_time", VFloat 50);
        ("end_time", VFloat 300);
        ("readings",
         VList (map VDict
                  (map (exposed str_value)
                       (collection world_two_readings "monitoring"))))].


(** ** Effects of a handler on the store, named for the statements below *)

(** [w'] has the store, the id generator and the clock of [w]; only the
    number of clock readings taken may differ. *)
Definition same_store (w w' : World) : Prop :=
  db w' = db w /\ db_fault w' = db_fault w /\
  next_oid w' = next_oid w /\ clock w' = clock w.

(** A computation that writes nothing. *)
Definition read_only {A} (c : M A) : Prop :=
  forall w, same_store w (snd (c w)).

(** The document's [_id] is an ObjectId the generator has already handed
    out. *)
Definition id_below (bound : ObjectId) (d : document) : Prop :=
  exists o, d !! "_id" = Some (VOid o) /\ (o < bound)%N.

(** Every stored document has an ObjectId [_id] older than the generator's
    next one, and no two documents of a collection share their [_id]. *)
Definition well_keyed (w : World) : Prop :=
  forall name,
    Forall (id_below (next_oid w)) (collection w name) /\
    NoDup (map (fun d : document => d !! "_id") (collection w name)).


(** The document [create_facility] leaves in the store when it runs in [w]. *)
Definition stored_facility (facility : FacilityCreate.t) (w : World) : document :=
  <["_id" := VOid (next_oid w)]>
    (<["updated_at" := VFloat (clock w (S (ticks w)))]>
       (<["created_at" := VFloat (clock w (ticks w))]>
          (FacilityCreate.to_dict facility))).

(** The document [upload_document] leaves in the store when it runs in [w]. *)
Definition stored_document (document : DocumentCreate.t) (w : World) : gmap string value :=
  <["_id" := VOid (next_oid w)]>
    (<["updated_at" := VFloat (clock w (S (ticks w)))]>
       (<["created_at" := VFloat (clock w (ticks w))]>
          (DocumentCreate.to_dict document))).

(** [w] after one insert into [name] that took [n] clock readings. *)
Definition after_insert (w : World) (name : string) (doc : document) (n : nat) : World :=
  mkWorld (<[name := (collection w name ++ [doc])%list]> (db w))
          None (N.succ (next_oid w)) (clock w) (n + ticks w).

(** A facility passes an optional filter on one of its fields: no filter
    and the empty filter let everything through. *)
Definition passes (key : string) (x : option string) (d : document) : bool :=
  match x with
  | None => true
  | Some s =>
      if String.eqb s "" then true
      else match d !! key with
           | Some (VStr s') => String.eqb s' s
           | _ => false
           end
  end.


(** The [id] fields of an answer of [get_risk_factors], in order. *)
Definition risk_factor_ids (run : result (list document) * World) : list (option value) :=
  match fst run with
  | Ok factors => map (fun d : document => d !! "id") factors
  | Raise _ => []
  end.


(** A store that refuses every operation. *)
Definition world_down : World :=
  mkWorld ∅ (Some "connection refused") 1%N clock0 0.

(** A facility and a document to send. *)
Definition north_pit : FacilityCreate.t :=
  FacilityCreate.mk "North pit" "Kiruna" "tailings-dam" "LKAB" "active".

Definition inspection_report : DocumentCreate.t :=
  DocumentCreate.mk "Inspection 2024" "report" decommissioned_id "No seepage observed".

(** A reading of "F1" inside the window from 50 to 300. *)
Definition window_reading : MonitoringData :=
  mkMonitoringData "F1" 150%float (dict [("pore-pressure", VFloat 11%float)]).

(** * Properties of the handlers *)

(** Closed equations are decided by evaluating both sides. *)
Ltac by_vm :=
  lazymatch goal with
  | |- @eq ?T _ ?b => vm_cast_no_check (@eq_refl T b)
  | |- _ => vm_compute; reflexivity
  end.

Section Properties.

Variable py_str : value -> string.
Variable str_exc : exception -> string.
Variable ObjectId_of_str : string -> option ObjectId.

(** Unfold the monad's operations and reduce. *)
Ltac run_monad :=
  cbv beta iota zeta delta
    [try_except bind ret raise store_ready time_time as_bad_request];
  cbn [db db_fault next_oid clock ticks].

(** *** Running [add_monitoring_data] *)

Lemma monitoring_doc_fresh fid data now :
  monitoring_doc fid data now !! "_id" = None.
Proof. reflexivity. Qed.

Lemma add_monitoring_data_run fid data w :
  db_fault w = None ->
  add_monitoring_data py_str str_exc fid data w =
    (Ok (<["id" := VStr (py_str (VOid (next_oid w)))]> (stored_reading fid data w)),
     mkWorld (<["monitoring" := (collection w "monitoring" ++ [stored_reading fid data w])%list]> (db w))
             None (N.succ (next_oid w)) (clock w) (S (ticks w))).
Proof.
  intros Hup.
  unfold add_monitoring_data, try_except, bind, time_time, insert_one, store_ready.
  cbn [db db_fault next_oid clock ticks].
  rewrite Hup.
  fold (monitoring_doc fid data (clock w (ticks w))).
  rewrite monitoring_doc_fresh.
  reflexivity.
Qed.

Lemma collection_after_insert (m : gmap string (list document)) name docs f o c t :
  collection (mkWorld (<[name := docs]> m) f o c t) name = docs.
Proof. unfold collection. cbn [db]. now rewrite lookup_insert_eq. Qed.

Lemma add_monitoring_data_store fid data w :
  db_fault w = None ->
  collection (snd (add_monitoring_data py_str str_exc fid data w)) "monitoring" =
    (collection w "monitoring" ++ [stored_reading fid data w])%list.
Proof.
  intros Hup. rewrite (add_monitoring_data_run fid data w Hup).
  cbn [snd]. apply collection_after_insert.
Qed.

(** C1 (as the code has it): [add_monitoring_data] compares the reading's
    timestamp with nothing. Whatever the timestamp, also one more than five
    minutes ahead of the ingestion time, the handler succeeds when the store
    is available, and the monitoring store gains exactly one entry, which
    carries that timestamp. *)
Theorem ingest_admits_any_timestamp fid data w :
  db_fault w = None ->
  let run := add_monitoring_data py_str str_exc fid data w in
  is_ok (fst run) = true /\
  collection (snd run) "monitoring" =
    (collection w "monitoring" ++ [stored_reading fid data w])%list /\
  stored_reading fid data w !! "timestamp" = Some (VFloat (timestamp data)).
Proof.
  intros Hup run. subst run. split; [|split].
  - now rewrite (add_monitoring_data_run fid data w Hup).
  - now apply add_monitoring_data_store.
  - reflexivity.
Qed.

(** C4 (as the code has it): [add_monitoring_data] never reads the
    facilities collection. Replacing that collection by any other one,
    with the facility decommissioned, active or absent, changes neither
    the handler's result nor the entry it appends to the monitoring
    store; with the store available the reading is admitted. *)
Theorem ingest_ignores_facilities fid data w facilities :
  db_fault w = None ->
  let run := add_monitoring_data py_str str_exc fid data w in
  let run' := add_monitoring_data py_str str_exc fid data
                (with_collection w "facilities" facilities) in
  fst run' = fst run /\
  is_ok (fst run') = true /\
  collection (snd run') "monitoring" =
    (collection w "monitoring" ++ [stored_reading fid data w])%list.
Proof.
  intros Hup run run'. subst run run'.
  assert (Hup' : db_fault (with_collection w "facilities" facilities) = None)
    by exact Hup.
  rewrite (add_monitoring_data_run fid data w Hup).
  rewrite (add_monitoring_data_run fid data _ Hup').
  cbn [fst snd]. repeat split.
  rewrite collection_after_insert.
  unfold with_collection, collection. cbn [db].
  now rewrite lookup_insert_ne.
Qed.

(** The only refusal on the ingest path: when the store is unavailable the
    driver's error comes back as a 400 and nothing is stored. *)
Lemma add_monitoring_data_store_down fid data w msg :
  db_fault w = Some msg ->
  let run := add_monitoring_data py_str str_exc fid data w in
  fst run = Raise (HTTPException 400 (str_exc (PyMongoError msg))) /\
  db (snd run) = db w.
Proof.
  intros Hdown run. subst run.
  unfold add_monitoring_data, insert_one. run_monad. rewrite Hdown. now split.
Qed.

(** C10: the stored reading carries the path parameter as its
    [facility_id], and the [facility_id] of the request body has no effect:
    with the store available the handler returns a document whose
    [facility_id] is the path parameter, the monitoring store gains one
    entry whose [facility_id] is the path parameter, and a request that
    differs only in the body's [facility_id] has the same outcome. *)
Theorem ingest_keeps_path_facility_id fid data w :
  db_fault w = None ->
  (exists doc w' entry,
      add_monitoring_data py_str str_exc fid data w = (Ok doc, w') /\
      doc !! "facility_id" = Some (VStr fid) /\
      collection w' "monitoring" = (collection w "monitoring" ++ [entry])%list /\
      entry !! "facility_id" = Some (VStr fid)) /\
  (forall body_facility_id,
      add_monitoring_data py_str str_exc fid
        (mkMonitoringData body_facility_id (timestamp data) (readings data)) w =
      add_monitoring_data py_str str_exc fid data w).
Proof.
  intros Hup. split.
  - eexists _, _, (stored_reading fid data w).
    split; [apply (add_monitoring_data_run fid data w Hup)|].
    split; [reflexivity|].
    split; [apply collection_after_insert | reflexivity].
  - intros body. reflexivity.
Qed.


(** *** Lookups by identifier *)

(** C9: a lookup that finds no record answers 400, not 404. When the
    path identifier parses, the store is available and no facility
    (respectively document) has that [_id], the 404 raised in the [try]
    block is caught by the handler's own [except Exception] and
    re-raised as a 400 whose detail is [str] of the 404 exception. *)
Theorem lookup_miss_is_400 id oid w :
  ObjectId_of_str id = Some oid ->
  db_fault w = None ->
  (List.filter (matches [("_id", EqOid oid)]) (collection w "facilities") = [] ->
   get_facility py_str str_exc ObjectId_of_str id w =
     (Raise (HTTPException 400 (str_exc (HTTPException 404 "Facility not found"))), w)) /\
  (List.filter (matches [("_id", EqOid oid)]) (collection w "documents") = [] ->
   get_document py_str str_exc ObjectId_of_str id w =
     (Raise (HTTPException 400 (str_exc (HTTPException 404 "Document not found"))), w)).
Proof.
  intros Hparse Hup.
  split; intros Hmiss.
  - unfold get_facility, new_ObjectId, find_one. rewrite Hparse.
    run_monad. rewrite Hup. run_monad. rewrite Hmiss. reflexivity.
  - unfold get_document, new_ObjectId, find_one. rewrite Hparse.
    run_monad. rewrite Hup. run_monad. rewrite Hmiss. reflexivity.
Qed.

(** X4: an identifier that does not parse is answered with 400 as well:
    the [InvalidId] goes through the same [except] clause, and nothing is
    read or written. *)
Lemma malformed_id_is_400 id w :
  ObjectId_of_str id = None ->
  get_facility py_str str_exc ObjectId_of_str id w =
    (Raise (HTTPException 400 (str_exc (InvalidId id))), w) /\
  get_document py_str str_exc ObjectId_of_str id w =
    (Raise (HTTPException 400 (str_exc (InvalidId id))), w).
Proof.
  intros Hparse.
  split; [unfold get_facility | unfold get_document];
    unfold new_ObjectId; rewrite Hparse; reflexivity.
Qed.

(** *** The monitoring query *)

Lemma expose_id_run d v w :
  d !! "_id" = Some v ->
  expose_id py_str d w = (Ok (exposed py_str d), w).
Proof.
  intros Hid. unfold expose_id, exposed, bind, getitem, delitem.
  rewrite Hid. unfold ret at 1.
  rewrite lookup_insert_ne by discriminate. rewrite Hid. reflexivity.
Qed.

Lemma collect_readings_run docs w :
  has_ids docs ->
  collect_readings py_str docs w = (Ok (map (exposed py_str) docs), w).
Proof.
  induction 1 as [|d docs [v Hv] _ IH]; [reflexivity|].
  cbn [collect_readings map]. unfold bind at 1.
  rewrite (expose_id_run d v w Hv).
  unfold bind at 1. rewrite IH. reflexivity.
Qed.

Lemma has_ids_filter f docs : has_ids docs -> has_ids (List.filter f docs).
Proof.
  induction 1 as [|d docs Hd _ IH]; cbn [List.filter]; [constructor|].
  destruct (f d); [constructor|]; assumption.
Qed.

(** C8 (as the code has it): with both bounds given and non-zero, the
    store available and every stored reading carrying its [_id], the
    monitoring query answers with exactly the stored readings that match
    the facility and whose timestamp lies between the bounds, each with its
    [_id] rendered as [id], in the order the store holds them. No sort by
    timestamp is applied, and the store is left as it was. *)
Theorem query_returns_store_order fid s e w :
  db_fault w = None ->
  has_ids (collection w "monitoring") ->
  PrimFloat.eqb s 0 = false ->
  PrimFloat.eqb e 0 = false ->
  get_monitoring_data py_str str_exc fid (Some s) (Some e) w =
    (Ok (dict [("facility_id", VStr fid);
               ("start_time", VFloat s);
               ("end_time", VFloat e);
               ("readings",
                VList (map VDict
                         (map (exposed py_str)
                            (List.filter (in_window fid s e)
                                         (collection w "monitoring")))))]),
     w).
Proof.
  intros Hup Hids Hs He.
  unfold get_monitoring_data, try_except, bind at 1, or_default.
  rewrite Hs. unfold ret at 1.
  unfold bind at 1. rewrite He. unfold ret at 1.
  unfold bind at 1, find, bind at 1, store_ready. rewrite Hup.
  unfold bind at 1.
  fold (in_window fid s e).
  rewrite collect_readings_run by (apply has_ids_filter, Hids).
  reflexivity.
Qed.

(** What the query of [get_monitoring_data] selects: the documents whose
    [facility_id] is the given string and whose [timestamp] is a double
    between the bounds, in the store's comparison. *)
Lemma in_window_spec fid s e (d : document) :
  in_window fid s e d = true <->
  d !! "facility_id" = Some (VStr fid) /\
  exists t, d !! "timestamp" = Some (VFloat t) /\
            num_lte s t = true /\ num_lte t e = true.
Proof.
  unfold in_window, matches, holds. cbn [forallb].
  rewrite andb_true_r, andb_true_iff.
  split.
  - intros [Hf Ht]. split.
    + destruct (d !! "facility_id") as [[]|]; try discriminate.
      apply String.eqb_eq in Hf. now subst.
    + destruct (d !! "timestamp") as [[]|]; try discriminate.
      apply andb_true_iff in Ht. eauto.
  - intros [Hf (t & Ht & Hlo & Hhi)]. rewrite Hf, Ht, Hlo, Hhi.
    now rewrite String.eqb_refl.
Qed.

(** Ingestion keeps the invariant the query relies on. *)
Lemma add_monitoring_data_has_ids fid data w :
  has_ids (collection w "monitoring") ->
  has_ids (collection (snd (add_monitoring_data py_str str_exc fid data w)) "monitoring").
Proof.
  intros Hids. destruct (db_fault w) as [msg|] eqn:Hup.
  - unfold add_monitoring_data, insert_one. run_monad. rewrite Hup. exact Hids.
  - rewrite add_monitoring_data_store by exact Hup.
    apply Forall_app. split; [exact Hids|].
    constructor; [|constructor]. now exists (VOid (next_oid w)).
Qed.

(** A bound of zero counts as a missing bound. *)
Lemma or_default_zero (fallback : M float) : or_default (Some 0%float) fallback = fallback.
Proof. reflexivity. Qed.

(** *** Running [assess_facility_risk] *)

Lemma py_int_run x z w : trunc x = Some z -> py_int x w = (Ok z, w).
Proof. intros H. unfold py_int. now rewrite H. Qed.

Lemma py_int_fails x w : trunc x = None -> is_ok (fst (py_int x w)) = false.
Proof.
  intros H. unfold py_int. rewrite H. now destruct (PrimFloat.is_nan x).
Qed.

Lemma assess_facility_risk_run fid seconds w :
  db_fault w = None ->
  trunc (clock w (ticks w)) = Some seconds ->
  assess_facility_risk py_str str_exc fid w =
    (Ok (assessment_of py_str fid seconds w),
     mkWorld (<["assessments" :=
                  (collection w "assessments" ++
                     [<["_id" := VOid (next_oid w)]>
                        (assessment_doc fid seconds (clock w (S (ticks w))))])%list]>
                (db w))
             None (N.succ (next_oid w)) (clock w) (S (S (ticks w)))).
Proof.
  intros Hup Hsec.
  unfold assess_facility_risk. run_monad.
  unfold py_int. rewrite Hsec. run_monad.
  unfold insert_one. run_monad. rewrite Hup.
  fold (assessment_doc fid seconds (clock w (S (ticks w)))).
  change (assessment_doc fid seconds (clock w (S (ticks w))) !! "_id")
    with (@None value).
  reflexivity.
Qed.

(** Every successful run is one of those above. *)
Lemma assess_facility_risk_inv fid w assessment w' :
  assess_facility_risk py_str str_exc fid w = (Ok assessment, w') ->
  exists seconds,
    db_fault w = None /\
    trunc (clock w (ticks w)) = Some seconds /\
    assessment = assessment_of py_str fid seconds w.
Proof.
  intros Hrun.
  destruct (trunc (clock w (ticks w))) as [seconds|] eqn:Hsec.
  - destruct (db_fault w) as [msg|] eqn:Hup.
    + exfalso. revert Hrun.
      unfold assess_facility_risk. run_monad.
      unfold py_int. rewrite Hsec. run_monad.
      unfold insert_one. run_monad. rewrite Hup. discriminate.
    + exists seconds. rewrite (assess_facility_risk_run fid seconds w Hup Hsec) in Hrun.
      now inversion Hrun.
  - exfalso. revert Hrun.
    unfold assess_facility_risk. run_monad.
    unfold py_int. rewrite Hsec.
    destruct (PrimFloat.is_nan (clock w (ticks w))); run_monad; discriminate.
Qed.

Lemma assessment_of_score fid seconds w :
  assessment_of py_str fid seconds w !! "risk_score" = Some (VInt 65).
Proof. reflexivity. Qed.

Lemma assessment_of_level fid seconds w :
  assessment_of py_str fid seconds w !! "overall_risk_level" = Some (VStr "medium").
Proof. reflexivity. Qed.

Lemma assessment_of_dom fid seconds w :
  dom (assessment_of py_str fid seconds w) = assessment_fields.
Proof. by_vm. Qed.

(** C2 (as the code has it): the handler never looks at the readings.
    For a facility with no reading in the store, as for any other, it
    returns (store available, clock reading finite) an assessment whose
    [risk_score] is the number 65, not 0, and whose fields are the usual
    ten: there is no data-insufficient marker. *)
Theorem assessment_on_empty_window_scores_65 fid seconds w :
  db_fault w = None ->
  trunc (clock w (ticks w)) = Some seconds ->
  no_readings w fid ->
  exists assessment w',
    assess_facility_risk py_str str_exc fid w = (Ok assessment, w') /\
    assessment !! "risk_score" = Some (VInt 65) /\
    has_numeric_score assessment = true /\
    dom assessment = assessment_fields.
Proof.
  intros Hup Hsec _.
  eexists _, _. split; [apply (assess_facility_risk_run fid seconds w Hup Hsec)|].
  split; [apply assessment_of_score|].
  split; [reflexivity | apply assessment_of_dom].
Qed.

(** C5: the risk assessment is a fixed payload. For every facility
    identifier and every state of the store, the handler (store
    available, clock reading finite) returns a dict whose risk level is
    "medium", whose score is 65, and whose risk factors and
    recommendations are the two literal lists of the source; none of them
    mentions the store or the facility. *)
Theorem assessment_is_static fid seconds w :
  db_fault w = None ->
  trunc (clock w (ticks w)) = Some seconds ->
  exists assessment w',
    assess_facility_risk py_str str_exc fid w = (Ok assessment, w') /\
    assessment !! "overall_risk_level" = Some (VStr "medium") /\
    assessment !! "risk_score" = Some (VInt 65) /\
    assessment !! "risk_factors" = Some (VList risk_factors) /\
    assessment !! "recommendations" = Some (VList recommendations).
Proof.
  intros Hup Hsec.
  eexists _, _. split; [apply (assess_facility_risk_run fid seconds w Hup Hsec)|].
  repeat split.
Qed.

(** C7: every assessment the handler returns is band-consistent: its
    score is an integer between 0 and 100 and its level is the band of
    that score (low below 34, medium from 34 to 66, high above 66). *)
Theorem assessment_band_consistent fid w assessment w' :
  assess_facility_risk py_str str_exc fid w = (Ok assessment, w') ->
  exists score,
    assessment !! "risk_score" = Some (VInt score) /\
    0 <= score <= 100 /\
    assessment !! "overall_risk_level" = Some (VStr (spec_band score)).
Proof.
  intros Hrun.
  destruct (assess_facility_risk_inv fid w assessment w' Hrun) as (seconds & _ & _ & ->).
  exists 65. split; [apply assessment_of_score|].
  split; [lia | apply assessment_of_level].
Qed.

Lemma assessment_doc_stable fid s1 t1 s2 t2 key :
  key <> "timestamp" -> key <> "assessment_id" ->
  assessment_doc fid s1 t1 !! key = assessment_doc fid s2 t2 !! key.
Proof.
  intros Ht Ha. unfold assessment_doc, dict.
  cbn [list_to_map foldr uncurry].
  rewrite !lookup_insert. cbn [fst snd].
  repeat case_decide; subst; congruence.
Qed.

(** C3 (as the code has it): two assessments of the same facility, from
    any two states of the store and the clock, agree on every field except
    [timestamp], [assessment_id] (built from the clock) and [_id]/[id]
    (assigned by the store): [facility_id], [overall_risk_level],
    [risk_score], [summary], [risk_factors] and [recommendations] are
    equal. *)
Theorem assessments_agree_on_fixed_fields fid w1 w2 a1 a2 w1' w2' key :
  assess_facility_risk py_str str_exc fid w1 = (Ok a1, w1') ->
  assess_facility_risk py_str str_exc fid w2 = (Ok a2, w2') ->
  key ∉ varying_fields ->
  a1 !! key = a2 !! key.
Proof.
  intros H1 H2 Hkey.
  destruct (assess_facility_risk_inv fid w1 a1 w1' H1) as (s1 & _ & _ & ->).
  destruct (assess_facility_risk_inv fid w2 a2 w2' H2) as (s2 & _ & _ & ->).
  unfold varying_fields in Hkey.
  rewrite !not_elem_of_cons in Hkey.
  destruct Hkey as (Ht & Ha & Hi & Hid & _).
  unfold assessment_of.
  rewrite !lookup_insert_ne by congruence.
  now apply assessment_doc_stable.
Qed.
End Properties.

(** C6: the token endpoint accepts exactly the pair ("demo", "demo"). It
    returns the access token when both fields equal "demo", and only then;
    every other pair raises HTTP 401 and no token is returned. The state is
    never touched. *)
Theorem login_accepts_only_demo (form_data : OAuth2PasswordRequestForm) (w : World) :
  (login_for_access_token form_data w =
     (Ok (dict [("access_token", VStr "demo_token_12345");
                ("token_type", VStr "bearer")]), w)
   <-> username form_data = "demo" /\ password form_data = "demo") /\
  (login_for_access_token form_data w =
     (Raise (HTTPException 401 "Incorrect username or password"), w)
   <-> ~ (username form_data = "demo" /\ password form_data = "demo")).
Proof.
  unfold login_for_access_token, ret, raise.
  destruct (String.eqb_spec (username form_data) "demo") as [Hu|Hu];
    destruct (String.eqb_spec (password form_data) "demo") as [Hp|Hp];
    cbn [andb]; (split; split; intros H); try discriminate; tauto.
Qed.

(** * The handlers on concrete requests *)


(** The reading stamped ten minutes ahead, ingested into the empty store. *)
Lemma ingest_admits_any_timestamp_witness :
  db_fault world0 = None /\
  let run := add_monitoring_data str_value str_exception "F1" future_reading world0 in
  is_ok (fst run) = true /\
  collection (snd run) "monitoring" =
    (collection world0 "monitoring" ++ [stored_reading "F1" future_reading world0])%list /\
  stored_reading "F1" future_reading world0 !! "timestamp" =
    Some (VFloat (timestamp future_reading)).
Proof.
  split; [reflexivity|].
  apply (ingest_admits_any_timestamp str_value str_exception "F1" future_reading world0).
  reflexivity.
Defined.

(** C1, refuted as stated: a reading stamped ten minutes after the
    ingestion time is answered with the stored document, and the monitoring
    store, empty before, holds it afterwards. *)
Lemma future_reading_is_stored :
  let run := add_monitoring_data str_value str_exception "F1" future_reading world0 in
  (PrimFloat.ltb (clock0 0 + 300)%float (timestamp future_reading) = true /\
   is_ok (fst run) = true /\
   collection world0 "monitoring" = [] /\
   collection (snd run) "monitoring" = [stored_reading "F1" future_reading world0]) /\
  ~ spec_rejects_future_timestamp future_reading world0 run.
Proof.
  intros run.
  assert (Hfacts :
    PrimFloat.ltb (clock0 0 + 300)%float (timestamp future_reading) = true /\
    is_ok (fst run) = true /\
    collection world0 "monitoring" = [] /\
    collection (snd run) "monitoring" = [stored_reading "F1" future_reading world0]).
  { subst run. repeat split; by_vm. }
  split; [exact Hfacts|].
  destruct Hfacts as (Hfuture & Hok & _ & _).
  intros Hspec. destruct (Hspec Hfuture) as [Hrefused _].
  rewrite Hok in Hrefused. discriminate.
Qed.

(** The same reading with and without the decommissioned facility on record. *)
Lemma ingest_ignores_facilities_witness :
  db_fault world0 = None /\
  let run := add_monitoring_data str_value str_exception decommissioned_id
               plain_reading world0 in
  let run' := add_monitoring_data str_value str_exception decommissioned_id
                plain_reading
                (with_collection world0 "facilities" [decommissioned_facility]) in
  fst run' = fst run /\
  is_ok (fst run') = true /\
  collection (snd run') "monitoring" =
    (collection world0 "monitoring" ++
       [stored_reading decommissioned_id plain_reading world0])%list.
Proof.
  split; [reflexivity|].
  apply (ingest_ignores_facilities str_value str_exception decommissioned_id
           plain_reading world0 [decommissioned_facility]).
  reflexivity.
Defined.

(** C4, refuted as stated: the path identifier resolves to a facility
    whose status is "decommissioned", and the reading is answered with the
    stored document and added to the monitoring store. *)
Lemma decommissioned_facility_reading_is_stored :
  let run := add_monitoring_data str_value str_exception decommissioned_id
               plain_reading world_decommissioned in
  (facility_status ObjectId_of_hex world_decommissioned decommissioned_id =
     Some (VStr "decommissioned") /\
   is_ok (fst run) = true /\
   collection world_decommissioned "monitoring" = [] /\
   collection (snd run) "monitoring" =
     [stored_reading decommissioned_id plain_reading world_decommissioned]) /\
  ~ spec_rejects_inactive_facility
      (facility_status ObjectId_of_hex world_decommissioned decommissioned_id)
      world_decommissioned run.
Proof.
  intros run.
  assert (Hfacts :
    facility_status ObjectId_of_hex world_decommissioned decommissioned_id =
      Some (VStr "decommissioned") /\
    is_ok (fst run) = true /\
    collection world_decommissioned "monitoring" = [] /\
    collection (snd run) "monitoring" =
      [stored_reading decommissioned_id plain_reading world_decommissioned]).
  { subst run. repeat split; by_vm. }
  split; [exact Hfacts|].
  destruct Hfacts as (Hstatus & Hok & _ & _).
  intros Hspec. destruct Hspec as [Hrefused _].
  - rewrite Hstatus. discriminate.
  - rewrite Hok in Hrefused. discriminate.
Qed.

(** A request for path "F2" whose body names "F1". *)
Lemma ingest_keeps_path_facility_id_witness :
  db_fault world0 = None /\
  ((exists doc w' entry,
       add_monitoring_data str_value str_exception "F2" future_reading world0 =
         (Ok doc, w') /\
       doc !! "facility_id" = Some (VStr "F2") /\
       collection w' "monitoring" = (collection world0 "monitoring" ++ [entry])%list /\
       entry !! "facility_id" = Some (VStr "F2")) /\
   (forall body_facility_id,
       add_monitoring_data str_value str_exception "F2"
         (mkMonitoringData body_facility_id (timestamp future_reading)
                           (readings future_reading)) world0 =
       add_monitoring_data str_value str_exception "F2" future_reading world0)).
Proof.
  split; [reflexivity|].
  apply (ingest_keeps_path_facility_id str_value str_exception "F2" future_reading world0).
  reflexivity.
Defined.

(** An identifier that parses and matches nothing, with the instance's
    rendering of the 404. *)
Lemma lookup_miss_is_400_witness :
  get_facility str_value str_exception ObjectId_of_hex unknown_id world_decommissioned =
    (Raise (HTTPException 400 "404: Facility not found"), world_decommissioned) /\
  get_document str_value str_exception ObjectId_of_hex unknown_id world_decommissioned =
    (Raise (HTTPException 400 "404: Document not found"), world_decommissioned).
Proof.
  destruct (lookup_miss_is_400 str_value str_exception ObjectId_of_hex
              unknown_id 11%N world_decommissioned) as [Hf Hd];
    [by_vm | by_vm |].
  split; [apply Hf | apply Hd]; by_vm.
Defined.

(** The query over the store that holds the two out-of-order readings. *)
Lemma query_returns_store_order_witness :
  db_fault world_two_readings = None /\
  has_ids (collection world_two_readings "monitoring") /\
  PrimFloat.eqb 50 0 = false /\
  PrimFloat.eqb 300 0 = false /\
  get_monitoring_data str_value str_exception "F1" (Some 50%float) (Some 300%float)
                      world_two_readings =
    (Ok (dict [("facility_id", VStr "F1");
               ("start_time", VFloat 50);
               ("end_time", VFloat 300);
               ("readings",
                VList (map VDict
                         (map (exposed str_value)
                            (List.filter (in_window "F1" 50 300)
                               (collection world_two_readings "monitoring")))))]),
     world_two_readings).
Proof.
  assert (Hids : has_ids (collection world_two_readings "monitoring")).
  { repeat constructor; eexists; vm_compute; reflexivity. }
  split; [by_vm|]. split; [exact Hids|].
  split; [by_vm|]. split; [by_vm|].
  apply (query_returns_store_order str_value str_exception "F1" 50%float 300%float
           world_two_readings); try (by_vm).
  exact Hids.
Defined.

(** C8, refuted as stated: a reading stamped 200 is ingested before one
    stamped 100; the query over the window from 50 to 300 lists them as
    200, 100, which is not ascending. *)
Lemma query_keeps_ingestion_order :
  (fst (ingest_then_query world0) = Ok queried_response /\
   reading_timestamps queried_response = [200%float; 100%float] /\
   ascending (reading_timestamps queried_response) = false) /\
  ~ spec_query_ascending (ingest_then_query world0).
Proof.
  assert (Hfacts :
    fst (ingest_then_query world0) = Ok queried_response /\
    reading_timestamps queried_response = [200%float; 100%float] /\
    ascending (reading_timestamps queried_response) = false).
  { repeat split; by_vm. }
  split; [exact Hfacts|].
  destruct Hfacts as (Hr & _ & Hdesc).
  intros (r' & Hr' & Hasc).
  rewrite Hr in Hr'. injection Hr' as <-.
  rewrite Hdesc in Hasc. discriminate.
Qed.

(** The assessment of "F1" over the empty store. *)
Lemma assessment_on_empty_window_scores_65_witness :
  db_fault world0 = None /\
  trunc (clock world0 (ticks world0)) = Some 1700000000 /\
  no_readings world0 "F1" /\
  exists assessment w',
    assess_facility_risk str_value str_exception "F1" world0 = (Ok assessment, w') /\
    assessment !! "risk_score" = Some (VInt 65) /\
    has_numeric_score assessment = true /\
    dom assessment = assessment_fields.
Proof.
  split; [by_vm|].
  split; [by_vm|].
  split; [by_vm|].
  apply (assessment_on_empty_window_scores_65 str_value str_exception "F1"
           1700000000 world0); by_vm.
Defined.

(** C2, refuted as stated: the store holds no reading at all, and the
    assessment of "F1" comes back with the numeric score 65. *)
Lemma empty_window_gets_numeric_score :
  (no_readings world0 "F1" /\
   fst (assess_facility_risk str_value str_exception "F1" world0) = Ok first_assessment /\
   first_assessment !! "risk_score" = Some (VInt 65) /\
   has_numeric_score first_assessment = true) /\
  ~ spec_degraded_when_empty world0 "F1"
      (assess_facility_risk str_value str_exception "F1" world0).
Proof.
  assert (Hfacts :
    no_readings world0 "F1" /\
    fst (assess_facility_risk str_value str_exception "F1" world0) = Ok first_assessment /\
    first_assessment !! "risk_score" = Some (VInt 65) /\
    has_numeric_score first_assessment = true).
  { repeat split; by_vm. }
  split; [exact Hfacts|].
  destruct Hfacts as (Hempty & Hrun & _ & Hnum).
  intros Hspec. destruct (Hspec Hempty) as (a & Ha & Hdegraded).
  rewrite Hrun in Ha. injection Ha as <-.
  rewrite Hnum in Hdegraded. discriminate.
Qed.

(** The assessment of "F1" over a store that holds two readings. *)
Lemma assessment_is_static_witness :
  db_fault world_two_readings = None /\
  trunc (clock world_two_readings (ticks world_two_readings)) = Some 1700000002 /\
  exists assessment w',
    assess_facility_risk str_value str_exception "F1" world_two_readings =
      (Ok assessment, w') /\
    assessment !! "overall_risk_level" = Some (VStr "medium") /\
    assessment !! "risk_score" = Some (VInt 65) /\
    assessment !! "risk_factors" = Some (VList risk_factors) /\
    assessment !! "recommendations" = Some (VList recommendations).
Proof.
  split; [by_vm|].
  split; [by_vm|].
  apply (assessment_is_static str_value str_exception "F1" 1700000002
           world_two_readings); by_vm.
Defined.

(** The first assessment of "F1": score 65, band "medium". *)
Lemma assessment_band_consistent_witness :
  assess_facility_risk str_value str_exception "F1" world0 =
    (Ok first_assessment, world_after_assessment) /\
  exists score,
    first_assessment !! "risk_score" = Some (VInt score) /\
    0 <= score <= 100 /\
    first_assessment !! "overall_risk_level" = Some (VStr (spec_band score)).
Proof.
  assert (Hrun : assess_facility_risk str_value str_exception "F1" world0 =
                   (Ok first_assessment, world_after_assessment))
    by by_vm.
  split; [exact Hrun|].
  exact (assessment_band_consistent str_value str_exception "F1" world0
           first_assessment world_after_assessment Hrun).
Defined.

(** The two assessments of [successive_assessments_differ] still carry the
    same score. *)
Lemma assessments_agree_on_fixed_fields_witness :
  assess_facility_risk str_value str_exception "F1" world0 =
    (Ok first_assessment, world_after_assessment) /\
  assess_facility_risk str_value str_exception "F1" world_after_assessment =
    (Ok second_assessment,
     snd (assess_facility_risk str_value str_exception "F1" world_after_assessment)) /\
  ("risk_score" ∉ varying_fields) /\
  first_assessment !! "risk_score" = second_assessment !! "risk_score".
Proof.
  assert (Hrun1 : assess_facility_risk str_value str_exception "F1" world0 =
                    (Ok first_assessment, world_after_assessment))
    by by_vm.
  assert (Hrun2 :
    assess_facility_risk str_value str_exception "F1" world_after_assessment =
      (Ok second_assessment,
       snd (assess_facility_risk str_value str_exception "F1" world_after_assessment)))
    by by_vm.
  assert (Hkey : "risk_score" ∉ varying_fields).
  { unfold varying_fields. rewrite !not_elem_of_cons. repeat split; try discriminate.
    apply not_elem_of_nil. }
  split; [exact Hrun1|]. split; [exact Hrun2|]. split; [exact Hkey|].
  exact (assessments_agree_on_fixed_fields str_value str_exception "F1"
           world0 world_after_assessment first_assessment second_assessment
           _ _ "risk_score" Hrun1 Hrun2 Hkey).
Defined.

(** C3, refuted as stated: two assessments of "F1" in a row, with the
    facilities and the readings untouched in between, differ in
    [assessment_id] (and in [id]), so they are not equal up to the
    timestamp. *)
Lemma successive_assessments_differ :
  (fst (assess_twice world0) = Ok (first_assessment, second_assessment) /\
   first_assessment !! "assessment_id" = Some (VStr "assessment_1700000000") /\
   second_assessment !! "assessment_id" = Some (VStr "assessment_1700000002") /\
   first_assessment !! "id" = Some (VStr "000000000000000000000001") /\
   second_assessment !! "id" = Some (VStr "000000000000000000000002") /\
   collection (snd (assess_twice world0)) "facilities" = collection world0 "facilities" /\
   collection (snd (assess_twice world0)) "monitoring" = collection world0 "monitoring") /\
  ~ spec_same_but_timestamp first_assessment second_assessment.
Proof.
  split; [repeat split; by_vm|].
  intros Hsame.
  apply (f_equal (fun a : document => a !! "assessment_id")) in Hsame.
  vm_compute in Hsame. discriminate.
Qed.

(** * Further properties: effects on the store *)

Lemma same_store_refl w : same_store w w.
Proof. now repeat split. Qed.

Lemma same_store_trans w1 w2 w3 :
  same_store w1 w2 -> same_store w2 w3 -> same_store w1 w3.
Proof.
  intros (Hd & Hf & Ho & Hc) (Hd' & Hf' & Ho' & Hc').
  repeat split; congruence.
Qed.

Lemma read_only_ret {A} (a : A) : read_only (ret a).
Proof. intros w. apply same_store_refl. Qed.

Lemma read_only_raise {A} e : read_only (@raise A e).
Proof. intros w. apply same_store_refl. Qed.

Lemma read_only_bind {A B} (c : M A) (k : A -> M B) :
  read_only c -> (forall a, read_only (k a)) -> read_only (bind c k).
Proof.
  intros Hc Hk w. specialize (Hc w). unfold bind.
  destruct (c w) as [[a|e] w']; cbn [snd] in *; [|exact Hc].
  exact (same_store_trans _ _ _ Hc (Hk a w')).
Qed.

Lemma read_only_try_except {A} (body : M A) handler :
  read_only body -> (forall e, read_only (handler e)) ->
  read_only (try_except body handler).
Proof.
  intros Hb Hh w. specialize (Hb w). unfold try_except.
  destruct (body w) as [[a|e] w']; cbn [snd] in *; [exact Hb|].
  exact (same_store_trans _ _ _ Hb (Hh e w')).
Qed.

Lemma read_only_time_time : read_only time_time.
Proof. intros w. now repeat split. Qed.

Lemma read_only_store_ready : read_only store_ready.
Proof. intros w. unfold store_ready. destruct (db_fault w); apply same_store_refl. Qed.

Lemma read_only_find name q : read_only (find name q).
Proof.
  apply read_only_bind; [apply read_only_store_ready|].
  intros _ w. apply same_store_refl.
Qed.

Lemma read_only_find_one name q : read_only (find_one name q).
Proof.
  apply read_only_bind; [apply read_only_store_ready|].
  intros _ w. apply same_store_refl.
Qed.

Lemma read_only_getitem d key : read_only (getitem d key).
Proof. unfold getitem. destruct (d !! key); [apply read_only_ret | apply read_only_raise]. Qed.

Lemma read_only_delitem d key : read_only (delitem d key).
Proof. unfold delitem. destruct (d !! key); [apply read_only_ret | apply read_only_raise]. Qed.

Lemma read_only_or_default x fallback :
  read_only fallback -> read_only (or_default x fallback).
Proof.
  intros Hf. unfold or_default. destruct x as [f|]; [|exact Hf].
  destruct (PrimFloat.eqb f 0); [exact Hf | apply read_only_ret].
Qed.

Lemma read_only_found_or x e : read_only (found_or x e).
Proof.
  unfold found_or. destruct x as [d|]; [|apply read_only_raise].
  destruct (Nat.eqb (size d) 0); [apply read_only_raise | apply read_only_ret].
Qed.

Lemma read_only_py_int x : read_only (py_int x).
Proof.
  unfold py_int. destruct (trunc x); [apply read_only_ret|].
  destruct (PrimFloat.is_nan x); apply read_only_raise.
Qed.

Lemma read_only_str_field kwargs key : read_only (str_field kwargs key).
Proof.
  unfold str_field. destruct (kwargs !! key) as [[]|];
    first [apply read_only_ret | apply read_only_raise].
Qed.

Create HintDb read_only.
#[export] Hint Resolve read_only_ret read_only_raise read_only_time_time
  read_only_store_ready read_only_find read_only_find_one read_only_getitem
  read_only_delitem read_only_or_default read_only_found_or read_only_py_int
  read_only_str_field : read_only.

(** Decompose a computation along its binds and its [try]. *)
Ltac read_only_steps :=
  repeat first
    [ apply read_only_try_except; [|intros]
    | apply read_only_bind; [|intros]
    | solve [auto with read_only] ].

Section MoreProperties.

Variable py_str : value -> string.
Variable str_exc : exception -> string.
Variable ObjectId_of_str : string -> option ObjectId.

(** Unfold the monad's operations and reduce. *)
Ltac run_monad :=
  cbv beta iota zeta delta
    [try_except bind ret raise store_ready time_time as_bad_request];
  cbn [db db_fault next_oid clock ticks].

Lemma read_only_as_bad_request {A} e : read_only (@as_bad_request str_exc A e).
Proof. apply read_only_raise. Qed.

Lemma read_only_new_ObjectId s : read_only (new_ObjectId ObjectId_of_str s).
Proof.
  unfold new_ObjectId. destruct (ObjectId_of_str s); auto with read_only.
Qed.

Lemma read_only_expose_id d : read_only (expose_id py_str d).
Proof. unfold expose_id. read_only_steps. Qed.

Lemma read_only_collect_readings docs : read_only (collect_readings py_str docs).
Proof.
  induction docs as [|d docs IH]; cbn [collect_readings]; [auto with read_only|].
  apply read_only_bind; [apply read_only_expose_id|]. intros d'.
  apply read_only_bind; [exact IH|]. auto with read_only.
Qed.

#[local] Hint Resolve read_only_as_bad_request read_only_new_ObjectId
  read_only_expose_id read_only_collect_readings : read_only.

(** X1: the four lookups and listings write nothing. Whatever the
    request and whatever the state of the store (available or not, the
    identifier well formed or not, a record found or not), [get_facility],
    [get_document], [list_facilities] and [get_monitoring_data] leave every
    collection, the id generator and the store's availability as they
    were. *)
Theorem readers_write_nothing :
  (forall id, read_only (get_facility py_str str_exc ObjectId_of_str id)) /\
  (forall id, read_only (get_document py_str str_exc ObjectId_of_str id)) /\
  (forall owner status type, read_only (list_facilities py_str str_exc owner status type)) /\
  (forall fid start_time end_time,
      read_only (get_monitoring_data py_str str_exc fid start_time end_time)).
Proof.
  split; [|split; [|split]]; intros.
  - unfold get_facility. read_only_steps.
  - unfold get_document. read_only_steps.
  - unfold list_facilities. read_only_steps.
  - unfold get_monitoring_data. read_only_steps.
Qed.

(** X2: the endpoints that never touch the store answer in every state.
    [health_check], [root], [get_risk_factors] and [query_model] succeed
    whether or not the store is available, and write nothing; in
    particular the health check reports "healthy" while the store is
    down. *)
Theorem storeless_endpoints_always_answer w fid q :
  (is_ok (fst (health_check w)) = true /\ same_store w (snd (health_check w))) /\
  (exists answer, fst (health_check w) = Ok answer /\
                  answer !! "status" = Some (VStr "healthy")) /\
  (is_ok (fst (root w)) = true /\ same_store w (snd (root w))) /\
  (is_ok (fst (get_risk_factors str_exc fid w)) = true /\
   same_store w (snd (get_risk_factors str_exc fid w))) /\
  (is_ok (fst (query_model str_exc q w)) = true /\
   same_store w (snd (query_model str_exc q w))).
Proof.
  repeat split; try reflexivity.
  eexists. split; reflexivity.
Qed.


(** *** Creating facilities and documents *)

Lemma create_facility_run facility w :
  db_fault w = None ->
  create_facility py_str str_exc facility w =
    (Ok (FacilityResponse.mk
           (py_str (VOid (next_oid w)))
           (FacilityCreate.name facility) (FacilityCreate.location facility)
           (FacilityCreate.type facility) (FacilityCreate.owner facility)
           (FacilityCreate.status facility)
           (py_str (VFloat (clock w (ticks w))))),
     after_insert w "facilities" (stored_facility facility w) 2).
Proof.
  intros Hup.
  unfold create_facility, insert_one. run_monad. rewrite Hup.
  reflexivity.
Qed.

Lemma upload_document_run document w :
  db_fault w = None ->
  upload_document py_str str_exc document w =
    (Ok (DocumentResponse.mk
           (py_str (VOid (next_oid w)))
           (DocumentCreate.name document) (DocumentCreate.type document)
           (DocumentCreate.facility_id document)
           (py_str (VFloat (clock w (ticks w))))),
     after_insert w "documents" (stored_document document w) 2).
Proof.
  intros Hup.
  unfold upload_document, insert_one. run_monad. rewrite Hup.
  reflexivity.
Qed.

(** *** Failure of the store, and lookups that hit *)

(** X3: with the store unavailable, every handler that needs it answers
    400 with the driver's error as detail and stores nothing. This covers
    both writers and readers; lookups by identifier get that far when the
    identifier parses, and the risk assessment when its clock reading is
    finite. *)
Theorem store_down_is_400 msg w :
  db_fault w = Some msg ->
  let refusal := HTTPException 400 (str_exc (PyMongoError msg)) in
  (forall facility,
      fst (create_facility py_str str_exc facility w) = Raise refusal /\
      db (snd (create_facility py_str str_exc facility w)) = db w) /\
  (forall document,
      fst (upload_document py_str str_exc document w) = Raise refusal /\
      db (snd (upload_document py_str str_exc document w)) = db w) /\
  (forall fid data,
      fst (add_monitoring_data py_str str_exc fid data w) = Raise refusal /\
      db (snd (add_monitoring_data py_str str_exc fid data w)) = db w) /\
  (forall fid seconds,
      trunc (clock w (ticks w)) = Some seconds ->
      fst (assess_facility_risk py_str str_exc fid w) = Raise refusal /\
      db (snd (assess_facility_risk py_str str_exc fid w)) = db w) /\
  (forall owner status type,
      fst (list_facilities py_str str_exc owner status type w) = Raise refusal) /\
  (forall fid start_time end_time,
      fst (get_monitoring_data py_str str_exc fid start_time end_time w) = Raise refusal) /\
  (forall id oid,
      ObjectId_of_str id = Some oid ->
      fst (get_facility py_str str_exc ObjectId_of_str id w) = Raise refusal /\
      fst (get_document py_str str_exc ObjectId_of_str id w) = Raise refusal).
Proof.
  intros Hdown refusal. subst refusal.
  split; [|split; [|split; [|split; [|split; [|split]]]]].
  - intros facility. unfold create_facility, insert_one. run_monad.
    rewrite Hdown. now split.
  - intros document. unfold upload_document, insert_one. run_monad.
    rewrite Hdown. now split.
  - intros fid data. unfold add_monitoring_data, insert_one. run_monad.
    rewrite Hdown. now split.
  - intros fid seconds Hsec. unfold assess_facility_risk. run_monad.
    unfold py_int. rewrite Hsec. run_monad.
    unfold insert_one. run_monad. rewrite Hdown. now split.
  - intros owner status type. unfold list_facilities, find. run_monad.
    now rewrite Hdown.
  - intros fid start_time end_time.
    unfold get_monitoring_data, find, or_default.
    destruct start_time as [s|]; [destruct (PrimFloat.eqb s 0)|];
      (destruct end_time as [e|]; [destruct (PrimFloat.eqb e 0)|]);
      run_monad; now rewrite Hdown.
  - intros id oid Hparse. split.
    + unfold get_facility, new_ObjectId, find_one. rewrite Hparse.
      run_monad. now rewrite Hdown.
    + unfold get_document, new_ObjectId, find_one. rewrite Hparse.
      run_monad. now rewrite Hdown.
Qed.

Lemma lookup_nonempty (d : document) key v : d !! key = Some v -> Nat.eqb (size d) 0 = false.
Proof.
  intros Hv. apply Nat.eqb_neq. intros Hsize.
  apply map_size_empty_iff in Hsize. subst d. now rewrite lookup_empty in Hv.
Qed.

Lemma get_facility_hit id oid (d : document) v w :
  ObjectId_of_str id = Some oid ->
  db_fault w = None ->
  d !! "_id" = Some v ->
  head (List.filter (matches [("_id", EqOid oid)]) (collection w "facilities")) = Some d ->
  get_facility py_str str_exc ObjectId_of_str id w =
    (Ok (delete "_id" (<["id" := VStr (py_str v)]> d)), w).
Proof.
  intros Hparse Hup Hid Hhit.
  assert (Hsize := lookup_nonempty d "_id" v Hid).
  unfold get_facility, new_ObjectId, find_one, found_or, expose_id, getitem, delitem.
  rewrite Hparse. run_monad. rewrite Hup. run_monad. rewrite Hhit, Hsize.
  run_monad. rewrite Hid. rewrite lookup_insert_ne by discriminate.
  rewrite Hid. reflexivity.
Qed.

Lemma get_document_hit id oid (d : document) v w :
  ObjectId_of_str id = Some oid ->
  db_fault w = None ->
  d !! "_id" = Some v ->
  head (List.filter (matches [("_id", EqOid oid)]) (collection w "documents")) = Some d ->
  get_document py_str str_exc ObjectId_of_str id w =
    (Ok (delete "_id" (<["id" := VStr (py_str v)]> d)), w).
Proof.
  intros Hparse Hup Hid Hhit.
  assert (Hsize := lookup_nonempty d "_id" v Hid).
  unfold get_document, new_ObjectId, find_one, found_or, expose_id, getitem, delitem.
  rewrite Hparse. run_monad. rewrite Hup. run_monad. rewrite Hhit, Hsize.
  run_monad. rewrite Hid. rewrite lookup_insert_ne by discriminate.
  rewrite Hid. reflexivity.
Qed.

(** X5: a lookup that hits returns the record with its [_id] rendered
    as [id]. When the identifier parses, the store is available and [d] is
    the first facility (respectively document) with that [_id], the
    handler returns [d] without its [_id] and with [id] set to [str] of it,
    and writes nothing. *)
Theorem lookup_hit_returns_record id oid (d : document) v w :
  ObjectId_of_str id = Some oid ->
  db_fault w = None ->
  d !! "_id" = Some v ->
  (head (List.filter (matches [("_id", EqOid oid)]) (collection w "facilities")) = Some d ->
   get_facility py_str str_exc ObjectId_of_str id w =
     (Ok (delete "_id" (<["id" := VStr (py_str v)]> d)), w)) /\
  (head (List.filter (matches [("_id", EqOid oid)]) (collection w "documents")) = Some d ->
   get_document py_str str_exc ObjectId_of_str id w =
     (Ok (delete "_id" (<["id" := VStr (py_str v)]> d)), w)).
Proof.
  intros Hparse Hup Hid. split; intros Hhit.
  - exact (get_facility_hit id oid d v w Hparse Hup Hid Hhit).
  - exact (get_document_hit id oid d v w Hparse Hup Hid Hhit).
Qed.

(** *** Identifiers stay unique *)






Lemma collection_after_insert_eq w name doc n :
  collection (after_insert w name doc n) name = (collection w name ++ [doc])%list.
Proof. unfold collection, after_insert. cbn [db]. now rewrite lookup_insert_eq. Qed.

Lemma collection_after_insert_ne w name name' doc n :
  name <> name' ->
  collection (after_insert w name doc n) name' = collection w name'.
Proof.
  intros Hne. unfold collection, after_insert. cbn [db].
  now rewrite lookup_insert_ne.
Qed.






(** *** Create, then look up *)

Lemma matches_id oid (d : document) :
  matches [("_id", EqOid oid)] d = true <-> d !! "_id" = Some (VOid oid).
Proof.
  unfold matches, holds. cbn [forallb]. rewrite andb_true_r.
  destruct (d !! "_id") as [[]|]; split; intros H; try discriminate.
  - apply N.eqb_eq in H. now subst.
  - injection H as ->. apply N.eqb_refl.
Qed.

Lemma filter_id_older bound oid docs :
  Forall (id_below bound) docs -> (bound <= oid)%N ->
  List.filter (matches [("_id", EqOid oid)]) docs = [].
Proof.
  intros Hbelow Hle. induction Hbelow as [|d docs (o & Ho & Hlt) _ IH]; [reflexivity|].
  cbn [List.filter]. destruct (matches [("_id", EqOid oid)] d) eqn:Hm; [|exact IH].
  apply matches_id in Hm. rewrite Ho in Hm. injection Hm as ->. lia.
Qed.

(** In a well keyed store, the document just appended is the one its id
    finds. *)
Lemma find_appended w name (doc : document) n :
  well_keyed w ->
  doc !! "_id" = Some (VOid (next_oid w)) ->
  head (List.filter (matches [("_id", EqOid (next_oid w))])
                    (collection (after_insert w name doc n) name)) = Some doc.
Proof.
  intros Hwk Hid. rewrite collection_after_insert_eq, List.filter_app.
  destruct (Hwk name) as [Hbelow _].
  rewrite (filter_id_older (next_oid w) (next_oid w) _ Hbelow) by lia.
  cbn [List.filter app]. apply matches_id in Hid. now rewrite Hid.
Qed.

(** X7: a facility that was created can be fetched by the id of the
    response. In a well keyed, available store, and provided the id the
    response carries parses back to the ObjectId it renders, [create_facility]
    followed by [get_facility] on the response's [id] returns the request's
    five fields, the two clock readings as [created_at] and [updated_at],
    and the same [id], without [_id]. *)
Theorem create_then_get_facility facility w :
  db_fault w = None ->
  well_keyed w ->
  ObjectId_of_str (py_str (VOid (next_oid w))) = Some (next_oid w) ->
  (created <- create_facility py_str str_exc facility ;;
   get_facility py_str str_exc ObjectId_of_str (FacilityResponse.id created)) w =
    (Ok (dict [("id", VStr (py_str (VOid (next_oid w))));
               ("name", VStr (FacilityCreate.name facility));
               ("location", VStr (FacilityCreate.location facility));
               ("type", VStr (FacilityCreate.type facility));
               ("owner", VStr (FacilityCreate.owner facility));
               ("status", VStr (FacilityCreate.status facility));
               ("created_at", VFloat (clock w (ticks w)));
               ("updated_at", VFloat (clock w (S (ticks w))))]),
     after_insert w "facilities" (stored_facility facility w) 2).
Proof.
  intros Hup Hwk Hparse.
  unfold bind at 1. rewrite (create_facility_run facility w Hup).
  cbn [FacilityResponse.id].
  assert (Hid : stored_facility facility w !! "_id" = Some (VOid (next_oid w)))
    by reflexivity.
  rewrite (get_facility_hit _ (next_oid w) (stored_facility facility w)
             (VOid (next_oid w))
             (after_insert w "facilities" (stored_facility facility w) 2)
             Hparse eq_refl Hid
             (find_appended w "facilities" _ 2 Hwk Hid)).
  reflexivity.
Qed.

(** X8: an uploaded document can be fetched by the id of the response,
    and the fetch returns the [content] that the upload's response leaves
    out. Same conditions as for facilities. *)
Theorem upload_then_get_document document w :
  db_fault w = None ->
  well_keyed w ->
  ObjectId_of_str (py_str (VOid (next_oid w))) = Some (next_oid w) ->
  (uploaded <- upload_document py_str str_exc document ;;
   get_document py_str str_exc ObjectId_of_str (DocumentResponse.id uploaded)) w =
    (Ok (dict [("id", VStr (py_str (VOid (next_oid w))));
               ("name", VStr (DocumentCreate.name document));
               ("type", VStr (DocumentCreate.type document));
               ("facility_id", VStr (DocumentCreate.facility_id document));
               ("content", VStr (DocumentCreate.content document));
               ("created_at", VFloat (clock w (ticks w)));
               ("updated_at", VFloat (clock w (S (ticks w))))]),
     after_insert w "documents" (stored_document document w) 2).
Proof.
  intros Hup Hwk Hparse.
  unfold bind at 1. rewrite (upload_document_run document w Hup).
  cbn [DocumentResponse.id].
  assert (Hid : stored_document document w !! "_id" = Some (VOid (next_oid w)))
    by reflexivity.
  rewrite (get_document_hit _ (next_oid w) (stored_document document w)
             (VOid (next_oid w))
             (after_insert w "documents" (stored_document document w) 2)
             Hparse eq_refl Hid
             (find_appended w "documents" _ 2 Hwk Hid)).
  reflexivity.
Qed.

(** *** Ingest, then query *)

Lemma get_monitoring_data_run fid s e w :
  db_fault w = None ->
  has_ids (collection w "monitoring") ->
  PrimFloat.eqb s 0 = false ->
  PrimFloat.eqb e 0 = false ->
  get_monitoring_data py_str str_exc fid (Some s) (Some e) w =
    (Ok (dict [("facility_id", VStr fid);
               ("start_time", VFloat s);
               ("end_time", VFloat e);
               ("readings",
                VList (map VDict
                         (map (exposed py_str)
                            (List.filter (in_window fid s e)
                                         (collection w "monitoring")))))]),
     w).
Proof.
  intros Hup Hids Hs He.
  unfold get_monitoring_data, try_except, bind at 1, or_default.
  rewrite Hs. unfold ret at 1.
  unfold bind at 1. rewrite He. unfold ret at 1.
  unfold bind at 1, find, bind at 1, store_ready. rewrite Hup.
  unfold bind at 1.
  fold (in_window fid s e).
  rewrite (collect_readings_run py_str) by (apply has_ids_filter, Hids).
  reflexivity.
Qed.

Lemma has_ids_after_ingest fid data w :
  has_ids (collection w "monitoring") ->
  has_ids (collection w "monitoring" ++ [stored_reading fid data w])%list.
Proof.
  intros Hids. apply Forall_app. split; [exact Hids|].
  constructor; [|constructor]. now exists (VOid (next_oid w)).
Qed.

(** Whether the stored reading of an ingest falls into a query. *)
Lemma in_window_stored fid' s e fid data w :
  in_window fid' s e (stored_reading fid data w) =
    String.eqb fid fid' && (num_lte s (timestamp data) && num_lte (timestamp data) e).
Proof.
  unfold in_window, matches, holds. cbn [forallb].
  change (stored_reading fid data w !! "facility_id") with (Some (VStr fid)).
  change (stored_reading fid data w !! "timestamp") with (Some (VFloat (timestamp data))).
  now rewrite andb_true_r.
Qed.

(** X9: a reading that was ingested is found by a query whose window
    contains its timestamp. With the store available, every stored reading
    carrying its [_id] and both bounds non-zero, [add_monitoring_data]
    followed by [get_monitoring_data] for the same facility answers with
    the readings that matched before, followed by the new one. *)
Theorem ingest_then_query_finds_reading fid data s e w :
  db_fault w = None ->
  has_ids (collection w "monitoring") ->
  PrimFloat.eqb s 0 = false ->
  PrimFloat.eqb e 0 = false ->
  num_lte s (timestamp data) = true ->
  num_lte (timestamp data) e = true ->
  fst ((_ <- add_monitoring_data py_str str_exc fid data ;;
        get_monitoring_data py_str str_exc fid (Some s) (Some e)) w) =
    Ok (dict [("facility_id", VStr fid);
              ("start_time", VFloat s);
              ("end_time", VFloat e);
              ("readings",
               VList (map VDict
                        (map (exposed py_str)
                             (List.filter (in_window fid s e)
                                          (collection w "monitoring"))
                         ++ [exposed py_str (stored_reading fid data w)])%list))]).
Proof.
  intros Hup Hids Hs He Hlo Hhi.
  unfold bind. rewrite (add_monitoring_data_run py_str str_exc fid data w Hup).
  rewrite get_monitoring_data_run; try assumption; try reflexivity.
  - cbn [fst]. rewrite collection_after_insert.
    rewrite List.filter_app. cbn [List.filter].
    rewrite in_window_stored, String.eqb_refl, Hlo, Hhi. cbn [andb].
    now rewrite map_app.
  - rewrite collection_after_insert. now apply has_ids_after_ingest.
Qed.

(** X10: a reading is invisible to the queries it does not belong to.
    Under the same conditions, when the query is for another facility or
    its window does not contain the reading's timestamp, the answer after
    the ingest is the answer before it. *)
Theorem ingest_invisible_elsewhere fid data fid' s e w :
  db_fault w = None ->
  has_ids (collection w "monitoring") ->
  PrimFloat.eqb s 0 = false ->
  PrimFloat.eqb e 0 = false ->
  fid <> fid' \/ num_lte s (timestamp data) = false
              \/ num_lte (timestamp data) e = false ->
  fst ((_ <- add_monitoring_data py_str str_exc fid data ;;
        get_monitoring_data py_str str_exc fid' (Some s) (Some e)) w) =
  fst (get_monitoring_data py_str str_exc fid' (Some s) (Some e) w).
Proof.
  intros Hup Hids Hs He Hout.
  unfold bind. rewrite (add_monitoring_data_run py_str str_exc fid data w Hup).
  rewrite !get_monitoring_data_run; try assumption; try reflexivity.
  - cbn [fst]. rewrite collection_after_insert.
    rewrite List.filter_app. cbn [List.filter].
    rewrite in_window_stored.
    replace (String.eqb fid fid' &&
             (num_lte s (timestamp data) && num_lte (timestamp data) e))
      with false.
    + now rewrite app_nil_r.
    + symmetry. destruct Hout as [Hne | [Hlo | Hhi]].
      * apply String.eqb_neq in Hne. now rewrite Hne.
      * rewrite Hlo. apply andb_false_r.
      * rewrite Hhi. now rewrite !andb_false_r.
  - rewrite collection_after_insert. now apply has_ids_after_ingest.
Qed.

(** X11: a missing bound and a zero bound both mean the default window.
    With no bounds, or with bounds equal to zero, the query reads the clock
    twice and answers for the window from seven days (604800 s) before the
    first reading to the second reading. *)
Theorem query_default_window fid z1 z2 w :
  db_fault w = None ->
  has_ids (collection w "monitoring") ->
  PrimFloat.eqb z1 0 = true ->
  PrimFloat.eqb z2 0 = true ->
  let start_time := (clock w (ticks w) - 604800)%float in
  let end_time := clock w (S (ticks w)) in
  get_monitoring_data py_str str_exc fid None None w =
    (Ok (dict [("facility_id", VStr fid);
               ("start_time", VFloat start_time);
               ("end_time", VFloat end_time);
               ("readings",
                VList (map VDict
                         (map (exposed py_str)
                            (List.filter (in_window fid start_time end_time)
                                         (collection w "monitoring")))))]),
     mkWorld (db w) (db_fault w) (next_oid w) (clock w) (S (S (ticks w)))) /\
  get_monitoring_data py_str str_exc fid (Some z1) (Some z2) w =
    get_monitoring_data py_str str_exc fid None None w.
Proof.
  intros Hup Hids Hz1 Hz2 start_time end_time. split.
  - unfold get_monitoring_data, find, or_default. run_monad. rewrite Hup.
    fold start_time end_time. fold (in_window fid start_time end_time).
    change (collection _ "monitoring") with (collection w "monitoring").
    rewrite (collect_readings_run py_str) by (apply has_ids_filter, Hids).
    reflexivity.
  - unfold get_monitoring_data, or_default. now rewrite Hz1, Hz2.
Qed.

(** *** Listing facilities *)

Lemma matches_app q1 q2 (d : document) :
  matches (q1 ++ q2) d = matches q1 d && matches q2 d.
Proof. unfold matches. apply forallb_app. Qed.

Lemma matches_filter_on key x (d : document) :
  matches (filter_on key x) d = passes key x d.
Proof.
  unfold filter_on, passes. destruct x as [s|]; [|reflexivity].
  destruct (String.eqb s ""); [reflexivity|].
  unfold matches, holds. cbn [forallb]. apply andb_true_r.
Qed.

Lemma list_facilities_matches owner status type w :
  db_fault w = None ->
  has_ids (collection w "facilities") ->
  list_facilities py_str str_exc owner status type w =
    (Ok (map (exposed py_str)
           (List.filter
              (fun d => passes "owner" owner d && passes "status" status d
                        && passes "type" type d)
              (collection w "facilities"))),
     w).
Proof.
  intros Hup Hids.
  unfold list_facilities, find. run_monad. rewrite Hup.
  rewrite (collect_readings_run py_str) by (apply has_ids_filter, Hids).
  do 3 f_equal. apply List.filter_ext. intros d.
  now rewrite !matches_app, !matches_filter_on, andb_assoc.
Qed.

(** X12: the listing returns exactly the facilities that pass every
    filter that was given, in store order, each with [_id] rendered as
    [id]; an absent filter and an empty-string filter both let every
    facility through. (Store available, every facility carrying its
    [_id].) *)
Theorem list_facilities_returns_matches owner status type w :
  db_fault w = None ->
  has_ids (collection w "facilities") ->
  list_facilities py_str str_exc owner status type w =
    (Ok (map (exposed py_str)
           (List.filter
              (fun d => passes "owner" owner d && passes "status" status d
                        && passes "type" type d)
              (collection w "facilities"))),
     w).
Proof.
  intros Hup Hids.
  unfold list_facilities, find. run_monad. rewrite Hup.
  rewrite (collect_readings_run py_str) by (apply has_ids_filter, Hids).
  do 3 f_equal. apply List.filter_ext. intros d.
  rewrite !matches_app, !matches_filter_on.
  apply andb_assoc.
Qed.

(** *** What the writers leave behind *)

Lemma collection_insert_ne (m : gmap string (list document)) name name' docs f o c t :
  name <> name' ->
  collection (mkWorld (<[name := docs]> m) f o c t) name' =
  default [] (m !! name').
Proof. intros Hne. unfold collection. cbn [db]. now rewrite lookup_insert_ne. Qed.

(** X13: an assessment is appended to the ledger and nothing else
    changes. With the store available and a finite clock reading,
    [assess_facility_risk] adds exactly one document at the end of the
    assessments collection, keeping the earlier ones in place, and leaves
    every other collection as it was. *)
Theorem assessment_is_appended fid seconds w :
  db_fault w = None ->
  trunc (clock w (ticks w)) = Some seconds ->
  let w' := snd (assess_facility_risk py_str str_exc fid w) in
  collection w' "assessments" =
    (collection w "assessments" ++
       [<["_id" := VOid (next_oid w)]>
          (assessment_doc fid seconds (clock w (S (ticks w))))])%list /\
  (forall name, name <> "assessments" -> collection w' name = collection w name).
Proof.
  intros Hup Hsec w'. subst w'.
  rewrite (assess_facility_risk_run py_str str_exc fid seconds w Hup Hsec).
  cbn [snd]. split.
  - apply collection_after_insert.
  - intros name Hne. now apply collection_insert_ne.
Qed.

(** X14: the two handlers that return the inserted dict return it with
    the driver's [_id] still in it. With the store available,
    [add_monitoring_data] answers with the stored document plus an [id]
    field holding [str] of its [_id]; the ObjectId itself is part of the
    answer. The same holds for [assess_facility_risk]. *)
Theorem inserted_dicts_keep_object_id fid data seconds w :
  db_fault w = None ->
  (exists answer,
      fst (add_monitoring_data py_str str_exc fid data w) = Ok answer /\
      answer !! "_id" = Some (VOid (next_oid w)) /\
      answer !! "id" = Some (VStr (py_str (VOid (next_oid w)))) /\
      delete "id" answer = stored_reading fid data w) /\
  (trunc (clock w (ticks w)) = Some seconds ->
   exists answer,
      fst (assess_facility_risk py_str str_exc fid w) = Ok answer /\
      answer !! "_id" = Some (VOid (next_oid w)) /\
      answer !! "id" = Some (VStr (py_str (VOid (next_oid w)))) /\
      delete "id" answer =
        <["_id" := VOid (next_oid w)]>
          (assessment_doc fid seconds (clock w (S (ticks w))))).
Proof.
  intros Hup. split.
  - rewrite (add_monitoring_data_run py_str str_exc fid data w Hup).
    eexists. split; [reflexivity|].
    split; [reflexivity|]. split; [reflexivity|].
    now rewrite delete_insert_id.
  - intros Hsec.
    rewrite (assess_facility_risk_run py_str str_exc fid seconds w Hup Hsec).
    eexists. split; [reflexivity|].
    split; [reflexivity|]. split; [reflexivity|].
    unfold assessment_of. now rewrite delete_insert_id.
Qed.

(** X15: uploading a document never looks at the facilities. Replacing
    the facilities collection by any other one, with or without the
    facility the document names, changes neither the response nor the
    document that is stored. *)
Theorem upload_ignores_facilities document w facilities :
  db_fault w = None ->
  let run := upload_document py_str str_exc document w in
  let run' := upload_document py_str str_exc document
                (with_collection w "facilities" facilities) in
  fst run' = fst run /\
  is_ok (fst run') = true /\
  collection (snd run') "documents" =
    (collection w "documents" ++ [stored_document document w])%list.
Proof.
  intros Hup run run'. subst run run'.
  assert (Hup' : db_fault (with_collection w "facilities" facilities) = None)
    by exact Hup.
  rewrite (upload_document_run document w Hup).
  rewrite (upload_document_run document _ Hup').
  cbn [fst snd]. repeat split.
  rewrite collection_after_insert_eq.
  unfold with_collection, collection. cbn [db].
  now rewrite lookup_insert_ne.
Qed.

(** X16: creating a facility stores what was sent and answers with it.
    With the store available the response repeats the five fields of the
    request, its [id] is [str] of the new [_id] and its [created_at] is
    [str] of the first clock reading; the facilities collection gains one
    document holding the five fields and the two clock readings, and the
    other collections are unchanged. *)
Theorem create_facility_stores_request facility w :
  db_fault w = None ->
  let run := create_facility py_str str_exc facility w in
  fst run =
    Ok (FacilityResponse.mk
          (py_str (VOid (next_oid w)))
          (FacilityCreate.name facility) (FacilityCreate.location facility)
          (FacilityCreate.type facility) (FacilityCreate.owner facility)
          (FacilityCreate.status facility)
          (py_str (VFloat (clock w (ticks w))))) /\
  collection (snd run) "facilities" =
    (collection w "facilities" ++
       [dict [("_id", VOid (next_oid w));
              ("name", VStr (FacilityCreate.name facility));
              ("location", VStr (FacilityCreate.location facility));
              ("type", VStr (FacilityCreate.type facility));
              ("owner", VStr (FacilityCreate.owner facility));
              ("status", VStr (FacilityCreate.status facility));
              ("created_at", VFloat (clock w (ticks w)));
              ("updated_at", VFloat (clock w (S (ticks w))))]])%list /\
  (forall name, name <> "facilities" ->
                collection (snd run) name = collection w name).
Proof.
  intros Hup run. subst run.
  rewrite (create_facility_run facility w Hup). cbn [fst snd].
  split; [reflexivity|]. split.
  - rewrite collection_after_insert_eq. do 2 f_equal; by_vm.
  - intros name Hne. apply collection_after_insert_ne. congruence.
Qed.

(** X17: a facility that was created is listed under its own
    attributes. With the store available and every facility carrying its
    [_id], [create_facility] followed by [list_facilities] filtered on the
    new facility's owner, status and type answers with the facilities that
    matched before, followed by the new one. *)
Theorem create_then_list_facilities facility w :
  db_fault w = None ->
  has_ids (collection w "facilities") ->
  let owner := Some (FacilityCreate.owner facility) in
  let status := Some (FacilityCreate.status facility) in
  let type := Some (FacilityCreate.type facility) in
  fst ((_ <- create_facility py_str str_exc facility ;;
        list_facilities py_str str_exc owner status type) w) =
    Ok (map (exposed py_str)
          (List.filter
             (fun d => passes "owner" owner d && passes "status" status d
                       && passes "type" type d)
             (collection w "facilities"))
        ++ [exposed py_str (stored_facility facility w)])%list.
Proof.
  intros Hup Hids owner status type.
  assert (Hpass : forall key s,
             stored_facility facility w !! key = Some (VStr s) ->
             passes key (Some s) (stored_facility facility w) = true).
  { intros key s Hkey. unfold passes. rewrite Hkey.
    destruct (String.eqb s ""); [reflexivity | apply String.eqb_refl]. }
  unfold bind. rewrite (create_facility_run facility w Hup).
  assert (Hids' : has_ids (collection (after_insert w "facilities"
                                         (stored_facility facility w) 2) "facilities")).
  { rewrite collection_after_insert_eq. apply Forall_app. split; [exact Hids|].
    constructor; [|constructor]. now exists (VOid (next_oid w)). }
  rewrite (list_facilities_matches owner status type
             (after_insert w "facilities" (stored_facility facility w) 2)
             eq_refl Hids').
  cbn [fst]. rewrite collection_after_insert_eq, List.filter_app.
  cbn [List.filter]. subst owner status type.
  rewrite !Hpass by reflexivity. cbn [andb].
  now rewrite map_app.
Qed.

(** *** The endpoints that compute nothing *)

(** X18: the AI query echoes the request's [text] and never fails on a
    request without one. For every request and every state, the answer's
    [query] field is the value under ["text"], whatever its type, or the
    empty string when the request has no such key; its [timestamp] is the
    clock reading. *)
Theorem query_model_echoes_text (q : document) w :
  exists answer,
    query_model str_exc q w =
      (Ok answer, mkWorld (db w) (db_fault w) (next_oid w) (clock w) (S (ticks w))) /\
    (forall text, q !! "text" = Some text -> answer !! "query" = Some text) /\
    (q !! "text" = None -> answer !! "query" = Some (VStr "")) /\
    answer !! "timestamp" = Some (VFloat (clock w (ticks w))).
Proof.
  eexists. split; [reflexivity|].
  split; [|split].
  - intros text Htext.
    change (Some (default (VStr "") (q !! "text")) = Some text). now rewrite Htext.
  - intros Htext.
    change (Some (default (VStr "") (q !! "text")) = Some (VStr "")). now rewrite Htext.
  - reflexivity.
Qed.

(** X19: the identifiers of the two risk factors name the facility.
    For every facility and state the answer has two factors whose [id]s
    are "risk_factor_1_" and "risk_factor_2_" followed by the facility
    identifier; the two differ from each other, and two facilities get the
    same identifiers only if they are the same facility. *)
Theorem risk_factor_ids_name_facility fid fid' w w' :
  risk_factor_ids (get_risk_factors str_exc fid w) =
    [Some (VStr ("risk_factor_1_" ++ fid)); Some (VStr ("risk_factor_2_" ++ fid))] /\
  NoDup (risk_factor_ids (get_risk_factors str_exc fid w)) /\
  (risk_factor_ids (get_risk_factors str_exc fid w) =
   risk_factor_ids (get_risk_factors str_exc fid' w') <-> fid = fid').
Proof.
  assert (Hids : forall f v,
             risk_factor_ids (get_risk_factors str_exc f v) =
               [Some (VStr ("risk_factor_1_" ++ f)); Some (VStr ("risk_factor_2_" ++ f))])
    by reflexivity.
  split; [apply Hids|]. split.
  - rewrite Hids. apply NoDup_cons. split; [|apply NoDup_singleton].
    intros Hin. apply list_elem_of_singleton in Hin.
    cbn [append] in Hin. discriminate.
  - rewrite !Hids. split; [|now intros ->].
    intros Heq. cbn [append] in Heq. now injection Heq.
Qed.
End MoreProperties.

(** * The other handlers on concrete requests *)

Lemma well_keyed_world0 : well_keyed world0.
Proof. intros name. split; [constructor | apply NoDup_nil; exact I]. Qed.

(** A store that is down, asked for everything it can be asked. *)
Lemma store_down_is_400_witness :
  db_fault world_down = Some "connection refused" /\
  let refusal := HTTPException 400 (str_exception (PyMongoError "connection refused")) in
  (forall facility,
      fst (create_facility str_value str_exception facility world_down) = Raise refusal /\
      db (snd (create_facility str_value str_exception facility world_down)) = db world_down) /\
  (forall document,
      fst (upload_document str_value str_exception document world_down) = Raise refusal /\
      db (snd (upload_document str_value str_exception document world_down)) = db world_down) /\
  (forall fid data,
      fst (add_monitoring_data str_value str_exception fid data world_down) = Raise refusal /\
      db (snd (add_monitoring_data str_value str_exception fid data world_down)) = db world_down) /\
  (forall fid seconds,
      trunc (clock world_down (ticks world_down)) = Some seconds ->
      fst (assess_facility_risk str_value str_exception fid world_down) = Raise refusal /\
      db (snd (assess_facility_risk str_value str_exception fid world_down)) = db world_down) /\
  (forall owner status type,
      fst (list_facilities str_value str_exception owner status type world_down) = Raise refusal) /\
  (forall fid start_time end_time,
      fst (get_monitoring_data str_value str_exception fid start_time end_time world_down) =
        Raise refusal) /\
  (forall id oid,
      ObjectId_of_hex id = Some oid ->
      fst (get_facility str_value str_exception ObjectId_of_hex id world_down) = Raise refusal /\
      fst (get_document str_value str_exception ObjectId_of_hex id world_down) = Raise refusal).
Proof.
  split; [reflexivity|].
  apply (store_down_is_400 str_value str_exception ObjectId_of_hex
           "connection refused" world_down).
  reflexivity.
Defined.

(** An identifier that is not 24 hexadecimal digits. *)
Lemma malformed_id_is_400_witness :
  ObjectId_of_hex "north-pit" = None /\
  get_facility str_value str_exception ObjectId_of_hex "north-pit" world_decommissioned =
    (Raise (HTTPException 400 (str_exception (InvalidId "north-pit"))),
     world_decommissioned) /\
  get_document str_value str_exception ObjectId_of_hex "north-pit" world_decommissioned =
    (Raise (HTTPException 400 (str_exception (InvalidId "north-pit"))),
     world_decommissioned).
Proof.
  split; [by_vm|].
  apply (malformed_id_is_400 str_value str_exception ObjectId_of_hex
           "north-pit" world_decommissioned).
  by_vm.
Defined.

(** The decommissioned facility, fetched by its identifier. *)
Lemma lookup_hit_returns_record_witness :
  ObjectId_of_hex decommissioned_id = Some 10%N /\
  db_fault world_decommissioned = None /\
  decommissioned_facility !! "_id" = Some (VOid 10%N) /\
  head (List.filter (matches [("_id", EqOid 10%N)])
                    (collection world_decommissioned "facilities")) =
    Some decommissioned_facility /\
  get_facility str_value str_exception ObjectId_of_hex decommissioned_id
               world_decommissioned =
    (Ok (delete "_id" (<["id" := VStr (str_value (VOid 10%N))]> decommissioned_facility)),
     world_decommissioned).
Proof.
  assert (Hparse : ObjectId_of_hex decommissioned_id = Some 10%N) by by_vm.
  assert (Hid : decommissioned_facility !! "_id" = Some (VOid 10%N)) by by_vm.
  assert (Hhit : head (List.filter (matches [("_id", EqOid 10%N)])
                         (collection world_decommissioned "facilities")) =
                 Some decommissioned_facility) by by_vm.
  split; [exact Hparse|]. split; [reflexivity|]. split; [exact Hid|].
  split; [exact Hhit|].
  exact (proj1 (lookup_hit_returns_record str_value str_exception ObjectId_of_hex
                  decommissioned_id 10%N decommissioned_facility (VOid 10%N)
                  world_decommissioned Hparse eq_refl Hid) Hhit).
Defined.


(** "North pit" created in the empty store and fetched back. *)
Lemma create_then_get_facility_witness :
  db_fault world0 = None /\
  well_keyed world0 /\
  ObjectId_of_hex (str_value (VOid (next_oid world0))) = Some (next_oid world0) /\
  (created <- create_facility str_value str_exception north_pit ;;
   get_facility str_value str_exception ObjectId_of_hex (FacilityResponse.id created))
    world0 =
    (Ok (dict [("id", VStr (str_value (VOid (next_oid world0))));
               ("name", VStr (FacilityCreate.name north_pit));
               ("location", VStr (FacilityCreate.location north_pit));
               ("type", VStr (FacilityCreate.type north_pit));
               ("owner", VStr (FacilityCreate.owner north_pit));
               ("status", VStr (FacilityCreate.status north_pit));
               ("created_at", VFloat (clock world0 (ticks world0)));
               ("updated_at", VFloat (clock world0 (S (ticks world0))))]),
     after_insert world0 "facilities" (stored_facility north_pit world0) 2).
Proof.
  assert (Hparse : ObjectId_of_hex (str_value (VOid (next_oid world0))) =
                   Some (next_oid world0)) by by_vm.
  split; [reflexivity|]. split; [exact well_keyed_world0|]. split; [exact Hparse|].
  exact (create_then_get_facility str_value str_exception ObjectId_of_hex
           north_pit world0 eq_refl well_keyed_world0 Hparse).
Defined.

(** The inspection report uploaded to the empty store and fetched back. *)
Lemma upload_then_get_document_witness :
  db_fault world0 = None /\
  well_keyed world0 /\
  ObjectId_of_hex (str_value (VOid (next_oid world0))) = Some (next_oid world0) /\
  (uploaded <- upload_document str_value str_exception inspection_report ;;
   get_document str_value str_exception ObjectId_of_hex (DocumentResponse.id uploaded))
    world0 =
    (Ok (dict [("id", VStr (str_value (VOid (next_oid world0))));
               ("name", VStr (DocumentCreate.name inspection_report));
               ("type", VStr (DocumentCreate.type inspection_report));
               ("facility_id", VStr (DocumentCreate.facility_id inspection_report));
               ("content", VStr (DocumentCreate.content inspection_report));
               ("created_at", VFloat (clock world0 (ticks world0)));
               ("updated_at", VFloat (clock world0 (S (ticks world0))))]),
     after_insert world0 "documents" (stored_document inspection_report world0) 2).
Proof.
  assert (Hparse : ObjectId_of_hex (str_value (VOid (next_oid world0))) =
                   Some (next_oid world0)) by by_vm.
  split; [reflexivity|]. split; [exact well_keyed_world0|]. split; [exact Hparse|].
  exact (upload_then_get_document str_value str_exception ObjectId_of_hex
           inspection_report world0 eq_refl well_keyed_world0 Hparse).
Defined.

Lemma has_ids_two_readings : has_ids (collection world_two_readings "monitoring").
Proof. repeat constructor; eexists; vm_compute; reflexivity. Qed.

(** A third reading of "F1", stamped 150, joins the two out-of-order ones. *)
Lemma ingest_then_query_finds_reading_witness :
  db_fault world_two_readings = None /\
  has_ids (collection world_two_readings "monitoring") /\
  PrimFloat.eqb 50 0 = false /\
  PrimFloat.eqb 300 0 = false /\
  num_lte 50 (timestamp window_reading) = true /\
  num_lte (timestamp window_reading) 300 = true /\
  fst ((_ <- add_monitoring_data str_value str_exception "F1" window_reading ;;
        get_monitoring_data str_value str_exception "F1" (Some 50%float) (Some 300%float))
         world_two_readings) =
    Ok (dict [("facility_id", VStr "F1");
              ("start_time", VFloat 50);
              ("end_time", VFloat 300);
              ("readings",
               VList (map VDict
                        (map (exposed str_value)
                             (List.filter (in_window "F1" 50 300)
                                          (collection world_two_readings "monitoring"))
                         ++ [exposed str_value
                               (stored_reading "F1" window_reading world_two_readings)])%list))]).
Proof.
  split; [by_vm|]. split; [exact has_ids_two_readings|].
  split; [by_vm|]. split; [by_vm|]. split; [by_vm|]. split; [by_vm|].
  apply (ingest_then_query_finds_reading str_value str_exception "F1" window_reading
           50%float 300%float world_two_readings);
    first [exact has_ids_two_readings | by_vm].
Defined.

(** The same reading is not seen by a query for "F2". *)
Lemma ingest_invisible_elsewhere_witness :
  db_fault world_two_readings = None /\
  has_ids (collection world_two_readings "monitoring") /\
  PrimFloat.eqb 50 0 = false /\
  PrimFloat.eqb 300 0 = false /\
  ("F1" <> "F2" \/ num_lte 50 (timestamp window_reading) = false
                \/ num_lte (timestamp window_reading) 300 = false) /\
  fst ((_ <- add_monitoring_data str_value str_exception "F1" window_reading ;;
        get_monitoring_data str_value str_exception "F2" (Some 50%float) (Some 300%float))
         world_two_readings) =
  fst (get_monitoring_data str_value str_exception "F2" (Some 50%float) (Some 300%float)
         world_two_readings).
Proof.
  assert (Hout : "F1" <> "F2" \/ num_lte 50 (timestamp window_reading) = false
                              \/ num_lte (timestamp window_reading) 300 = false)
    by (left; discriminate).
  split; [by_vm|]. split; [exact has_ids_two_readings|].
  split; [by_vm|]. split; [by_vm|]. split; [exact Hout|].
  apply (ingest_invisible_elsewhere str_value str_exception "F1" window_reading "F2"
           50%float 300%float world_two_readings);
    first [exact has_ids_two_readings | exact Hout | by_vm].
Defined.

(** The query without bounds, and with both bounds zero, over the two
    readings. *)
Lemma query_default_window_witness :
  db_fault world_two_readings = None /\
  has_ids (collection world_two_readings "monitoring") /\
  PrimFloat.eqb 0 0 = true /\
  PrimFloat.eqb (-0) 0 = true /\
  let w := world_two_readings in
  let start_time := (clock w (ticks w) - 604800)%float in
  let end_time := clock w (S (ticks w)) in
  get_monitoring_data str_value str_exception "F1" None None w =
    (Ok (dict [("facility_id", VStr "F1");
               ("start_time", VFloat start_time);
               ("end_time", VFloat end_time);
               ("readings",
                VList (map VDict
                         (map (exposed str_value)
                            (List.filter (in_window "F1" start_time end_time)
                                         (collection w "monitoring")))))]),
     mkWorld (db w) (db_fault w) (next_oid w) (clock w) (S (S (ticks w)))) /\
  get_monitoring_data str_value str_exception "F1" (Some 0%float) (Some (-0)%float) w =
    get_monitoring_data str_value str_exception "F1" None None w.
Proof.
  split; [by_vm|]. split; [exact has_ids_two_readings|].
  split; [by_vm|]. split; [by_vm|].
  apply (query_default_window str_value str_exception "F1" 0%float (-0)%float
           world_two_readings);
    first [exact has_ids_two_readings | by_vm].
Defined.

Lemma has_ids_decommissioned : has_ids (collection world_decommissioned "facilities").
Proof. repeat constructor; eexists; vm_compute; reflexivity. Qed.

(** The listing filtered on status "decommissioned", with an empty owner
    filter. *)
Lemma list_facilities_returns_matches_witness :
  db_fault world_decommissioned = None /\
  has_ids (collection world_decommissioned "facilities") /\
  list_facilities str_value str_exception (Some "") (Some "decommissioned") None
                  world_decommissioned =
    (Ok (map (exposed str_value)
           (List.filter
              (fun d => passes "owner" (Some "") d
                        && passes "status" (Some "decommissioned") d
                        && passes "type" None d)
              (collection world_decommissioned "facilities"))),
     world_decommissioned).
Proof.
  split; [reflexivity|]. split; [exact has_ids_decommissioned|].
  exact (list_facilities_returns_matches str_value str_exception
           (Some "") (Some "decommissioned") None world_decommissioned
           eq_refl has_ids_decommissioned).
Defined.

(** A second assessment of "F1", after the first. *)
Lemma assessment_is_appended_witness :
  db_fault world_after_assessment = None /\
  trunc (clock world_after_assessment (ticks world_after_assessment)) =
    Some 1700000002 /\
  let w := world_after_assessment in
  let w' := snd (assess_facility_risk str_value str_exception "F1" w) in
  collection w' "assessments" =
    (collection w "assessments" ++
       [<["_id" := VOid (next_oid w)]>
          (assessment_doc "F1" 1700000002 (clock w (S (ticks w))))])%list /\
  (forall name, name <> "assessments" -> collection w' name = collection w name).
Proof.
  assert (Hup : db_fault world_after_assessment = None) by by_vm.
  assert (Hsec : trunc (clock world_after_assessment (ticks world_after_assessment)) =
                 Some 1700000002) by by_vm.
  split; [exact Hup|]. split; [exact Hsec|].
  exact (assessment_is_appended str_value str_exception "F1" 1700000002
           world_after_assessment Hup Hsec).
Defined.

(** The future reading and the first assessment, as answered. *)
Lemma inserted_dicts_keep_object_id_witness :
  db_fault world0 = None /\
  (exists answer,
      fst (add_monitoring_data str_value str_exception "F1" future_reading world0) =
        Ok answer /\
      answer !! "_id" = Some (VOid (next_oid world0)) /\
      answer !! "id" = Some (VStr (str_value (VOid (next_oid world0)))) /\
      delete "id" answer = stored_reading "F1" future_reading world0) /\
  (trunc (clock world0 (ticks world0)) = Some 1700000000 ->
   exists answer,
      fst (assess_facility_risk str_value str_exception "F1" world0) = Ok answer /\
      answer !! "_id" = Some (VOid (next_oid world0)) /\
      answer !! "id" = Some (VStr (str_value (VOid (next_oid world0)))) /\
      delete "id" answer =
        <["_id" := VOid (next_oid world0)]>
          (assessment_doc "F1" 1700000000 (clock world0 (S (ticks world0))))).
Proof.
  split; [reflexivity|].
  exact (inserted_dicts_keep_object_id str_value str_exception "F1" future_reading
           1700000000 world0 eq_refl).
Defined.

(** The inspection report, uploaded with and without the facility it names
    on record. *)
Lemma upload_ignores_facilities_witness :
  db_fault world0 = None /\
  let run := upload_document str_value str_exception inspection_report world0 in
  let run' := upload_document str_value str_exception inspection_report
                (with_collection world0 "facilities" [decommissioned_facility]) in
  fst run' = fst run /\
  is_ok (fst run') = true /\
  collection (snd run') "documents" =
    (collection world0 "documents" ++ [stored_document inspection_report world0])%list.
Proof.
  split; [reflexivity|].
  exact (upload_ignores_facilities str_value str_exception inspection_report world0
           [decommissioned_facility] eq_refl).
Defined.

(** "North pit" created in the empty store. *)
Lemma create_facility_stores_request_witness :
  db_fault world0 = None /\
  let run := create_facility str_value str_exception north_pit world0 in
  fst run =
    Ok (FacilityResponse.mk
          (str_value (VOid (next_oid world0)))
          "North pit" "Kiruna" "tailings-dam" "LKAB" "active"
          (str_value (VFloat (clock world0 (ticks world0))))) /\
  collection (snd run) "facilities" =
    (collection world0 "facilities" ++
       [dict [("_id", VOid (next_oid world0));
              ("name", VStr "North pit");
              ("location", VStr "Kiruna");
              ("type", VStr "tailings-dam");
              ("owner", VStr "LKAB");
              ("status", VStr "active");
              ("created_at", VFloat (clock world0 (ticks world0)));
              ("updated_at", VFloat (clock world0 (S (ticks world0))))]])%list /\
  (forall name, name <> "facilities" ->
                collection (snd run) name = collection world0 name).
Proof.
  split; [reflexivity|].
  exact (create_facility_stores_request str_value str_exception north_pit world0 eq_refl).
Defined.

(** "North pit" created next to the decommissioned facility, then listed
    under its own owner, status and type. *)
Lemma create_then_list_facilities_witness :
  db_fault world_decommissioned = None /\
  has_ids (collection world_decommissioned "facilities") /\
  let owner := Some (FacilityCreate.owner north_pit) in
  let status := Some (FacilityCreate.status north_pit) in
  let type := Some (FacilityCreate.type north_pit) in
  fst ((_ <- create_facility str_value str_exception north_pit ;;
        list_facilities str_value str_exception owner status type)
         world_decommissioned) =
    Ok (map (exposed str_value)
          (List.filter
             (fun d => passes "owner" owner d && passes "status" status d
                       && passes "type" type d)
             (collection world_decommissioned "facilities"))
        ++ [exposed str_value (stored_facility north_pit world_decommissioned)])%list.
Proof.
  split; [reflexivity|]. split; [exact has_ids_decommissioned|].
  exact (create_then_list_facilities str_value str_exception north_pit
           world_decommissioned eq_refl has_ids_decommissioned).
Defined.
